(** * scrape_apihub_odata: a shallow embedding and its properties

    The development follows [scrape_apihub_odata.py]: the metadata
    normaliser [massage_result], the dataset helpers [get_dataset_json],
    [create_acq_dataset] and [ingest_acq_dataset], and the driver [scrape]
    with its paginated query loop and its existence check.

    Python dictionaries are finite maps ([gmap]), exceptions are an explicit
    error result, and the effects of the driver (requests, probes, files,
    pauses) are recorded in a trace of events. *)

From Stdlib Require Import ZArith Ascii Lia.
From stdpp Require Import base option list gmap strings pretty.

Open Scope Z_scope.

(** ** Exceptions and the error result *)

Inductive exn :=
| KeyError (key : string)
| TypeError
| AttributeError
| ValueError
| RuntimeError (msg : string)
| HTTPError (status : Z)
| RequestException
| XMLSyntaxError
| WKTReadingError
| StopIteration.

Inductive result (A : Type) :=
| OK (a : A)
| Raise (e : exn).
Arguments OK {A} a.
Arguments Raise {A} e.

Global Instance result_ret : MRet result := λ A a, OK a.

Global Instance result_bind : MBind result := λ A B f m,
  match m with
  | OK a => f a
  | Raise e => Raise e
  end.

(** [for i in l: acc = f(acc, i)], stopping at the first exception. *)
Fixpoint for_each {A S} (f : S -> A -> result S) (l : list A) (s : S) : result S :=
  match l with
  | [] => OK s
  | i :: l' => s' ← f s i; for_each f l' s'
  end.

(** ** Python built-ins used by the script *)

Definition is_space (c : ascii) : bool :=
  let n := nat_of_ascii c in
  ((9 <=? n) && (n <=? 13))%nat || (n =? 32)%nat.

Definition is_digit (c : ascii) : bool :=
  let n := nat_of_ascii c in ((48 <=? n) && (n <=? 57))%nat.

Definition digit_val (c : ascii) : Z := Z.of_nat (nat_of_ascii c) - 48.

Fixpoint lstrip (s : string) : string :=
  match s with
  | String c s' => if is_space c then lstrip s' else s
  | EmptyString => EmptyString
  end.

(** Digits followed by white space only; [acc] is the value read so far and
    [seen] tells whether a digit was read. *)
Fixpoint read_digits (s : string) (acc : Z) (seen : bool) : option Z :=
  match s with
  | EmptyString => if seen then Some acc else None
  | String c s' =>
      if is_digit c then read_digits s' (10 * acc + digit_val c) true
      else if seen && (String.eqb (lstrip s) "") then Some acc
      else None
  end.

(** [int(s)] on a text in base ten: surrounding white space, an optional
    sign, at least one digit; anything else is a [ValueError]. *)
Definition py_int (s : string) : result Z :=
  let body :=
    match lstrip s with
    | String "-"%char s' => option_map Z.opp (read_digits s' 0 false)
    | String "+"%char s' => read_digits s' 0 false
    | s' => read_digits s' 0 false
    end in
  match body with
  | Some n => OK n
  | None => Raise ValueError
  end.

(** [s.replace('Z', '')]: every occurrence of the character is removed. *)
Fixpoint replace_Z (s : string) : string :=
  match s with
  | EmptyString => EmptyString
  | String c s' => if Ascii.eqb c "Z"%char then replace_Z s' else String c (replace_Z s')
  end.




(** [s.split('.')[0]]: the text before the first full stop. *)
Fixpoint split_dot_0 (s : string) : string :=
  match s with
  | EmptyString => EmptyString
  | String c s' => if Ascii.eqb c "."%char then EmptyString else String c (split_dot_0 s')
  end.

Definition getitem {V} (d : gmap string V) (k : string) : result V :=
  match d !! k with
  | Some v => OK v
  | None => Raise (KeyError k)
  end.

(** [os.path.join(a, b)] for two components. *)
Definition ends_with_slash (a : string) : bool :=
  match String.rev a with
  | String "/"%char _ => true
  | _ => false
  end.

Definition os_path_join (a b : string) : string :=
  match b with
  | String "/"%char _ => b
  | _ => if String.eqb a "" || ends_with_slash a then a +:+ b else a +:+ "/" +:+ b
  end.

(** ** The regular expression [PLATFORM_RE = S1(.+?)_]

    [re.search] tries every start position from the left; [.] matches any
    character but a line feed, and the lazy [+?] stops at the first
    underscore that follows at least one character. *)

Definition is_newline (c : ascii) : bool := (nat_of_ascii c =? 10)%nat.

(** After the first character of the group: extend up to the next
    underscore. The group is built in reverse in [acc]. *)
Fixpoint lazy_until_underscore (s : string) (acc : string) : option string :=
  match s with
  | EmptyString => None
  | String c s' =>
      if Ascii.eqb c "_"%char then Some (String.rev acc)
      else if is_newline c then None
      else lazy_until_underscore s' (String c acc)
  end.

Definition match_group (s : string) : option string :=
  match s with
  | EmptyString => None
  | String c s' => if is_newline c then None else lazy_until_underscore s' (String c "")
  end.

Fixpoint platform_re_search (s : string) : option string :=
  match s with
  | EmptyString => None
  | String c s' =>
      let here :=
        match s with
        | String "S"%char (String "1"%char rest) => match_group rest
        | _ => None
        end in
      match here with
      | Some g => Some g
      | None => platform_re_search s'
      end
  end.

(** ** Values and records *)

(** An element of a field group: [{'name': .., 'content': ..}] for the
    integer, string and date groups, [{'href': .., 'rel': ..}] (the relation
    is optional) for links. *)
Abbreviation item := (gmap string string).

(** What an entry of the catalogue feed holds under a key. The geometry
    objects built from the footprint are kept symbolic: [VLocation w] is the
    GeoJSON geometry of the well-known text [w] and [VBbox w] the first ring
    of the coordinates of its envelope. *)
Inductive value :=
| VInt (n : Z)
| VStr (s : string)
| VItems (l : list item)
| VLocation (wkt : string)
| VBbox (wkt : string).

(** A raw entry and the met record are one and the same dictionary, which
    [massage_result] rewrites in place. *)
Abbreviation record := (gmap string value).

Global Instance value_eq_dec : EqDecision value.
Proof. solve_decision. Defined.

(** Iterating over the value found under a group key. A text yields its
    characters, and indexing a character by ['name'] is a [TypeError]; the
    empty text yields nothing. *)
Definition iter_items (v : value) : result (list item) :=
  match v with
  | VItems l => OK l
  | VStr "" => OK []
  | _ => Raise TypeError
  end.

(** ** The normaliser [massage_result] *)

Section Normalizer.

(** Whether [shapely.wkt.loads] reads the text and the two GeoJSON features
    can be built from the geometry. *)
Variable wkt_ok : string -> bool.

(** The text ['%s' % v] of a value that is neither a text nor an integer. *)
Variable py_repr : value -> string.

Definition format_s (v : value) : string :=
  match v with
  | VStr s => s
  | VInt n => pretty n
  | _ => py_repr v
  end.

(** *** Integer fields *)

Definition set_int_field (res : record) (i : item) : result record :=
  name ← getitem i "name";
  if decide (name = "orbitnumber") then
    c ← getitem i "content"; n ← py_int c; OK (<["orbitNumber" := VInt n]> res)
  else if decide (name = "relativeorbitnumber") then
    c ← getitem i "content"; n ← py_int c; OK (<["trackNumber" := VInt n]> res)
  else
    c ← getitem i "content"; n ← py_int c; OK (<[name := VInt n]> res).

Definition set_int_fields (res : record) : result record :=
  g ← getitem res "int";
  l ← iter_items g;
  res' ← for_each set_int_field l res;
  OK (delete "int" res').

(** *** Links *)

Definition set_link (res : record) (i : item) : result record :=
  match i !! "rel" with
  | Some rel => href ← getitem i "href"; OK (<[rel := VStr href]> res)
  | None => href ← getitem i "href"; OK (<["download_url" := VStr href]> res)
  end.

Definition set_links (res : record) : result record :=
  g ← getitem res "link";
  l ← iter_items g;
  res' ← for_each set_link l res;
  OK (delete "link" res').

(** *** String fields *)

Definition set_str_field (res : record) (i : item) : result record :=
  name ← getitem i "name";
  if decide (name = "orbitdirection") then
    c ← getitem i "content";
    if decide (c = "DESCENDING") then OK (<["direction" := VStr "dsc"]> res)
    else if decide (c = "ASCENDING") then OK (<["direction" := VStr "asc"]> res)
    else Raise (RuntimeError ("Failed to recognize orbit direction: " +:+ c))
  else if decide (name = "endposition") then
    c ← getitem i "content"; OK (<["sensingStop" := VStr c]> res)
  else
    c ← getitem i "content"; OK (<[name := VStr c]> res).

Definition set_str_fields (res : record) : result record :=
  g ← getitem res "str";
  l ← iter_items g;
  res' ← for_each set_str_field l res;
  OK (delete "str" res').

(** *** Date fields *)

Definition set_date_field (res : record) (i : item) : result record :=
  name ← getitem i "name";
  if decide (name = "beginposition") then
    c ← getitem i "content"; OK (<["sensingStart" := VStr (replace_Z c)]> res)
  else if decide (name = "endposition") then
    c ← getitem i "content"; OK (<["sensingStop" := VStr (replace_Z c)]> res)
  else
    c ← getitem i "content"; OK (<[name := VStr c]> res).

Definition set_date_fields (res : record) : result record :=
  g ← getitem res "date";
  l ← iter_items g;
  res' ← for_each set_date_field l res;
  OK (delete "date" res').



(** *** Derived fields *)

Definition set_names (res : record) : result record :=
  title ← getitem res "title";
  let res1 := <["data_product_name" := VStr ("acquisition-" +:+ format_s title)]> res in
  title' ← getitem res1 "title";
  OK (<["archive_filename" := VStr (format_s title' +:+ ".zip")]> res1).

(** [shapely.wkt.loads] and the two geometries made from what it reads.
    [wkt_ok w] says that the text [w] is read and gives a geometry; the
    failures of the two libraries on any other text are not told apart. *)
Definition set_footprint (res : record) : result record :=
  fp ← getitem res "footprint";
  match fp with
  | VStr w =>
      if wkt_ok w
      then OK (<["bbox" := VBbox w]> (<["location" := VLocation w]> res))
      else Raise WKTReadingError
  | _ => Raise TypeError
  end.

Definition set_platform (res : record) : result record :=
  title ← getitem res "title";
  match title with
  | VStr t =>
      match platform_re_search t with
      | Some g => OK (<["platform" := VStr ("Sentinel-1" +:+ g)]> res)
      | None => Raise (RuntimeError ("Failed to extract iplatform: " +:+ t))
      end
  | _ => Raise TypeError
  end.

(** *** Track verification *)

(** [res['orbitNumber'] - base]: only an integer can be subtracted from. *)
Definition py_sub (v : value) (base : Z) : result Z :=
  match v with
  | VInt n => OK (n - base)
  | _ => Raise TypeError
  end.

(** [if res['trackNumber'] != (res['orbitNumber']-base)%175+1: raise ...];
    Python's [%] with a positive modulus is [Z.modulo]. *)
Definition check_track (res : record) (base : Z) (msg : string) : result unit :=
  track ← getitem res "trackNumber";
  orbit ← getitem res "orbitNumber";
  d ← py_sub orbit base;
  if decide (track ≠ VInt (d mod 175 + 1)) then Raise (RuntimeError msg) else OK ().

Definition verify_track (res : record) : result record :=
  p ← getitem res "platform";
  _ ← (if decide (p = VStr "Sentinel-1A")
       then check_track res 73 "Failed to verify S1A relative orbit number and track number."
       else OK ());
  p' ← getitem res "platform";
  _ ← (if decide (p' = VStr "Sentinel-1B")
       then check_track res 27 "Failed to verify S1B relative orbit number and track number."
       else OK ());
  OK res.

(** The entry as the loop over the string group finds it. *)
Definition fields_before_str (res : record) : result record :=
  res ← set_int_fields res;
  set_links res.

(** The entry as the loop over the date group finds it. *)
Definition fields_before_dates (res : record) : result record :=
  res ← fields_before_str res;
  set_str_fields res.

(** The entry as it stands when the track is verified. *)
Definition massage_fields (res : record) : result record :=
  res ← fields_before_dates res;
  res ← set_date_fields res;
  res ← set_names res;
  res ← set_footprint res;
  set_platform res.

Definition massage_result (res : record) : result record :=
  res ← massage_fields res;
  verify_track res.

(** The track number follows from the orbit number by the formula of the
    platform, both being integers. *)
Definition track_formula (res : record) (base : Z) : Prop :=
  ∃ t o : Z, res !! "trackNumber" = Some (VInt t) ∧
             res !! "orbitNumber" = Some (VInt o) ∧
             t = (o - base) mod 175 + 1.

End Normalizer.

(** ** Dataset descriptor *)

Record dataset := {
  ds_version : string;
  ds_label : value;
  ds_location : value;
  ds_starttime : value;
  ds_endtime : value
}.

Definition get_dataset_json (met : record) (version : string) : result dataset :=
  label ← getitem met "data_product_name";
  location ← getitem met "location";
  starttime ← getitem met "sensingStart";
  endtime ← getitem met "sensingStop";
  OK {| ds_version := version; ds_label := label; ds_location := location;
        ds_starttime := starttime; ds_endtime := endtime |}.

(** ** Effects of the driver *)

(** The value under ['entry'] of a feed: scihub returns the lone entry
    itself, not a list, when a page holds one entry. *)
Inductive entries :=
| Lone (e : record)
| Many (l : list record).

(** What [json.dump] writes. *)
Inductive payload :=
| JEntries (es : entries)
| JDataset (ds : dataset)
| JMet (met : record).

(** Logging and printing are left out of the trace. *)
Inductive event :=
| EvGet (filter : string) (skip : Z) (top : Z)
| EvWrite (path : string) (p : payload)
| EvSleep (seconds : Z)
| EvHead (url : string)
| EvMakedirs (path : string)
| EvFetch (src : value) (dest : string)
| EvConvert (argv : list string)
| EvUnlink (path : string)
| EvMkdtemp (path : string)
| EvIngest (id : string) (ds_cfg : string) (ds_dir : string)
| EvRmtree (path : string).

(** ** Creating and ingesting datasets *)

(** The met dictionary is changed in place, so the outcome carries it
    as the caller sees it afterwards, also when an exception is raised.
    The calls to the file system, to the converter and to the ingestion
    are taken to succeed: they appear as events only. *)
Record acq_outcome := {
  met_after : record;
  acq_events : list event;
  acq_returned : result (string * string)
}.

Section Datasets.

(** [os.path.abspath] and [os.path.isdir], as the file system answers. *)
Variable abspath : string -> string.
Variable isdir : string -> bool.

(** The directory that the [n]-th call of [tempfile.mkdtemp] makes. *)
Variable mkdtemp : nat -> string.

Definition create_acq_dataset (ds : dataset) (met : record)
    (root_ds_dir : string) (browse : bool) : acq_outcome :=
  match getitem met "data_product_name" with
  | Raise e => {| met_after := met; acq_events := []; acq_returned := Raise e |}
  | OK (VStr id) =>
      let root := abspath root_ds_dir in
      let ds_dir := os_path_join root id in
      let made := if isdir ds_dir then [] else [EvMakedirs ds_dir] in
      let met' := <["query_api" := VStr "odata"]> met in
      let ds_file := os_path_join ds_dir (id +:+ ".dataset.json") in
      let met_file := os_path_join ds_dir (id +:+ ".met.json") in
      let dumped := [EvWrite ds_file (JDataset ds); EvWrite met_file (JMet met')] in
      if browse then
        let browse_jpg := os_path_join ds_dir "browse.jpg" in
        let browse_png := os_path_join ds_dir "browse.png" in
        let browse_small_png := os_path_join ds_dir "browse_small.png" in
        match getitem met' "icon" with
        | Raise e =>
            {| met_after := met'; acq_events := made ++ dumped; acq_returned := Raise e |}
        | OK icon =>
            {| met_after := met';
               acq_events := made ++ dumped ++
                 [EvFetch icon browse_jpg;
                  EvConvert ["convert"; browse_jpg; browse_png];
                  EvUnlink browse_jpg;
                  EvConvert ["convert"; "-resize"; "250x250"; browse_png; browse_small_png]];
               acq_returned := OK (id, ds_dir) |}
        end
      else
        {| met_after := met'; acq_events := made ++ dumped; acq_returned := OK (id, ds_dir) |}
  | OK _ => {| met_after := met; acq_events := []; acq_returned := Raise AttributeError |}
  end.

(** [ingest_acq_dataset(ds, met, ds_cfg)]; [n] counts the temporary
    directories made so far. The source returns nothing; the outcome keeps
    what [create_acq_dataset] returned, to tell a normal end from an
    exception. *)
Definition ingest_acq_dataset (ds : dataset) (met : record) (ds_cfg : string)
    (browse : bool) (n : nat) : acq_outcome :=
  let tmp_dir := mkdtemp n in
  let out := create_acq_dataset ds met tmp_dir browse in
  match acq_returned out with
  | Raise e =>
      {| met_after := met_after out; acq_events := EvMkdtemp tmp_dir :: acq_events out;
         acq_returned := Raise e |}
  | OK (id, ds_dir) =>
      {| met_after := met_after out;
         acq_events := EvMkdtemp tmp_dir :: acq_events out ++
                       [EvIngest id ds_cfg ds_dir; EvRmtree tmp_dir];
         acq_returned := OK (id, ds_dir) |}
  end.

End Datasets.

(** ** The driver [scrape] *)

(** [prods_all] maps a dataset name to [{'met': .., 'ds': ..}];
    [ids_by_track] maps a track number (an integer, or a text when the
    entry carries one) to the names seen on it. *)
Record accumulator := {
  prods_all : gmap string (record * dataset);
  ids_by_track : gmap (Z + string) (list string)
}.

(** What the document of a response body holds: the declared total and
    the entries of the feed. *)
Record feed := {
  opensearch_totalResults : option string;
  entry : option entries
}.

(** What [session.get] gives for one request: a transport failure, or a
    status with a body: [None] when [fromstring] cannot parse it, else
    the document that the parsed Element stands for. *)
Inductive response :=
| ConnectionFailed
| Response (status_code : Z) (content : option feed).

Record loop_state := {
  offset : Z;
  total_results_expected : option Z;
  acc : accumulator
}.

Definition QUERY_TEMPLATE (a b : string) : string :=
  "IngestionDate ge datetime'" +:+ a +:+ "' and IngestionDate lt datetime'" +:+ b +:+
  "' and substringof('IW_SLC',Name)".

(** [Response.raise_for_status] of the requests library: an [HTTPError] for
    a status from 400 to 599, nothing otherwise. *)
Definition raise_for_status (status : Z) : result unit :=
  if ((400 <=? status) && (status <? 600))%Z then Raise (HTTPError status) else OK ().

(** The key that a value makes in a dictionary; lists and dictionaries
    cannot be hashed. *)
Definition hash_key (v : value) : result (Z + string) :=
  match v with
  | VInt n => OK (inl n)
  | VStr s => OK (inr s)
  | _ => Raise TypeError
  end.

(** The name under which a record is filed. [massage_result] always leaves
    a text there (lemma [massage_result_name] below). *)
Definition name_key (v : value) : result string :=
  match v with
  | VStr s => OK s
  | _ => Raise TypeError
  end.

Definition as_list (es : entries) : list record :=
  match es with
  | Lone e => [e]
  | Many l => l
  end.

Record scrape_args := {
  ds_es_url : string;
  ds_cfg : string;
  starttime : string;
  endtime : string;
  version : string;
  ingest_missing : bool;
  create_only : bool;
  browse : bool
}.

Record scrape_result := {
  final_prods_all : gmap string (record * dataset);
  final_ids_by_track : gmap (Z + string) (list string);
  prods_found : list string;
  prods_missing : list string
}.

(** The request, the probe and the dataset events of a trace. *)
Definition is_get (ev : event) : bool :=
  match ev with EvGet _ _ _ => true | _ => false end.

Definition is_head (ev : event) : bool :=
  match ev with EvHead _ => true | _ => false end.

Definition is_network (ev : event) : bool := is_get ev || is_head ev.

Definition is_dataset_event (ev : event) : bool :=
  match ev with
  | EvGet _ _ _ | EvHead _ | EvSleep _ | EvWrite _ (JEntries _) => false
  | _ => true
  end.

(** The name and the track under which a normalised record is filed. *)
Definition record_id (met : record) : option string :=
  match met !! "data_product_name" with
  | Some (VStr s) => Some s
  | _ => None
  end.

Definition record_track (met : record) : option (Z + string) :=
  match met !! "trackNumber" with
  | Some (VInt n) => Some (inl n)
  | Some (VStr s) => Some (inr s)
  | _ => None
  end.

(** The entries of a page, none when the feed has no ['entry']. *)
Definition page_entries (r : response) : list record :=
  match r with
  | Response _ (Some f) =>
      match entry f with
      | Some es => as_list es
      | None => []
      end
  | _ => []
  end.

(** [results[key]] where [results] is the Element that [fromstring] of
    [lxml.etree] returns: an Element is indexed by a position or a slice,
    and a text as index raises [TypeError], whatever the document holds. *)
Definition element_getitem (results : feed) (key : string) : result feed :=
  Raise TypeError.

Definition CONFIG_ERROR : exn :=
  RuntimeError "Cannot specify ingest_missing=True and create_only=True.".

Section Driver.

Variable wkt_ok : string -> bool.
Variable py_repr : value -> string.
Variable abspath : string -> string.
Variable isdir : string -> bool.
Variable mkdtemp : nat -> string.

(** The body of [for met in entries], after normalisation. *)
Definition accumulate (version : string) (a : accumulator) (met : record)
    : result accumulator :=
  ds ← get_dataset_json met version;
  name ← getitem met "data_product_name";
  id ← name_key name;
  let prods := <[id := (met, ds)]> (prods_all a) in
  track ← getitem met "trackNumber";
  t ← hash_key track;
  OK {| prods_all := prods;
        ids_by_track := <[t := default [] (ids_by_track a !! t) ++ [id]]> (ids_by_track a) |}.

Definition process_entry (version : string) (a : accumulator) (e : record)
    : result accumulator :=
  met ← massage_result wkt_ok py_repr e;
  accumulate version a met.

(** The entries of the pages, normalised and filed page after page. *)
Definition file_pages (version : string) (pages : list response) (a : accumulator)
    : result accumulator :=
  for_each (λ a r, for_each (process_entry version) (page_entries r) a) pages a.

(** The turn from [with open('res.json', 'w')] on, for the entries at
    hand: the dump, the count, the new offset and flag, the entries
    filed one by one, the pause. *)
Definition process_page (version : string) (es : entries) (total : Z) (st : loop_state)
    : list event * result (bool * loop_state) :=
  let written := EvWrite "res.json" (JEntries es) in
  let l := as_list es in
  let count := Z.of_nat (length l) in
  match for_each (process_entry version) l (acc st) with
  | Raise e => ([written], Raise e)
  | OK a =>
      ([written; EvSleep 3],
       OK ((0 <? count)%Z, {| offset := offset st + count;
                          total_results_expected := Some total;
                          acc := a |}))
  end.

(** One turn of [while loop]: the events of the turn, and either an
    exception or whether to go on and the new state. *)
Definition loop_body (query version : string) (r : response) (st : loop_state)
    : list event * result (bool * loop_state) :=
  let get := EvGet query (offset st) 100 in
  match r with
  | ConnectionFailed => ([get], Raise RequestException)
  | Response status body =>
      let head :=
        _ ← raise_for_status status;
        results ← match body with Some f => OK f | None => Raise XMLSyntaxError end;
        total ← match total_results_expected st with
                | None =>
                    f ← element_getitem results "feed";
                    t ← match opensearch_totalResults f with
                        | Some t => OK t
                        | None => Raise (KeyError "opensearch:totalResults")
                        end;
                    py_int t
                | Some total => OK total
                end;
        f ← element_getitem results "feed";
        OK (entry f, total) in
      match head with
      | Raise e => ([get], Raise e)
      | OK (None, total) =>
          ([get], OK (false, {| offset := offset st;
                                total_results_expected := Some total;
                                acc := acc st |}))
      | OK (Some es, total) =>
          let (tr, res) := process_page version es total st in (get :: tr, res)
      end
  end.

(** The session is scripted: the n-th request is answered by the n-th
    response, and a request beyond the script raises [StopIteration]. *)
Fixpoint query_loop (query version : string) (script : list response)
    (st : loop_state) : list event * result accumulator :=
  match script with
  | [] => ([EvGet query (offset st) 100], Raise StopIteration)
  | r :: script' =>
      match loop_body query version r st with
      | (tr, Raise e) => (tr, Raise e)
      | (tr, OK (false, st')) => (tr, OK (acc st'))
      | (tr, OK (true, st')) =>
          let (tr', res) := query_loop query version script' st' in (tr ++ tr', res)
      end
  end.

(** The existence check over the names of [prods_all]; [rhead] gives the
    status of the probe, or [None] when every retry failed. *)
Fixpoint check_exists (rhead : string -> option Z) (url : string) (ids : list string)
    (found missing : list string) : list event * result (list string * list string) :=
  match ids with
  | [] => ([], OK (found, missing))
  | acq_id :: ids' =>
      let probe := url +:+ "/" +:+ acq_id in
      match rhead probe with
      | None => ([EvHead probe], Raise RequestException)
      | Some status =>
          let next :=
            if (status =? 200)%Z then OK (found ++ [acq_id], missing)
            else if (status =? 404)%Z then OK (found, missing ++ [acq_id])
            else _ ← raise_for_status status; OK (found, missing) in
          match next with
          | Raise e => ([EvHead probe], Raise e)
          | OK (found', missing') =>
              let (tr, res) := check_exists rhead url ids' found' missing' in
              (EvHead probe :: tr, res)
          end
      end
  end.

(** [for acq_id in prods_missing: info = prods_all[acq_id]; action(..)].
    The action changes [info['met']] in place, which [prods_all] shares. *)
Fixpoint for_missing (action : dataset -> record -> nat -> acq_outcome)
    (ids : list string) (n : nat) (prods : gmap string (record * dataset))
    : list event * result (gmap string (record * dataset)) :=
  match ids with
  | [] => ([], OK prods)
  | acq_id :: ids' =>
      match prods !! acq_id with
      | None => ([], Raise (KeyError acq_id))
      | Some (met, ds) =>
          let out := action ds met n in
          let prods' := <[acq_id := (met_after out, ds)]> prods in
          match acq_returned out with
          | Raise e => (acq_events out, Raise e)
          | OK _ =>
              let (tr, res) := for_missing action ids' (S n) prods' in
              (acq_events out ++ tr, res)
          end
      end
  end.

Definition scrape_query (a : scrape_args) : string :=
  QUERY_TEMPLATE (split_dot_0 (starttime a)) (split_dot_0 (endtime a)).

Definition initial_state : loop_state :=
  {| offset := 0; total_results_expected := None;
     acc := {| prods_all := ∅; ids_by_track := ∅ |} |}.

(** The names of [prods_all] in the order of [iteritems], which Python
    leaves unspecified; here it is the order of the finite map. *)
Definition iteritems_keys (prods : gmap string (record * dataset)) : list string :=
  (map_to_list prods).*1.

(** The options and the datasets, from [# error check options] on: the
    pair of options is refused, or the datasets of the missing are made. *)
Definition options_step (a : scrape_args) (all : accumulator)
    (found missing : list string) : list event * result scrape_result :=
  if ingest_missing a && create_only a then ([], Raise CONFIG_ERROR)
  else
    let action :=
      if ingest_missing a && negb (create_only a) then
        Some (λ ds met n, ingest_acq_dataset abspath isdir mkdtemp ds met (ds_cfg a) false n)
      else if negb (ingest_missing a) && create_only a then
        Some (λ ds met (_ : nat), create_acq_dataset abspath isdir ds met "." (browse a))
      else None in
    let (tr3, prods) :=
      match action with
      | Some f => for_missing f missing 0 (prods_all all)
      | None => ([], OK (prods_all all))
      end in
    (tr3,
     prods ← prods;
     OK {| final_prods_all := prods; final_ids_by_track := ids_by_track all;
           prods_found := found; prods_missing := missing |}).

(** [scrape]: the query loop, the existence check, the options, the
    datasets. The report between the check and the options is only logged
    and is left out, as are the credentials of the session and the unused
    [email_to]. *)
Definition scrape (a : scrape_args) (script : list response)
    (rhead : string -> option Z) : list event * result scrape_result :=
  match query_loop (scrape_query a) (version a) script initial_state with
  | (tr1, Raise e) => (tr1, Raise e)
  | (tr1, OK all) =>
      match check_exists rhead (ds_es_url a) (iteritems_keys (prods_all all)) [] [] with
      | (tr2, Raise e) => (tr1 ++ tr2, Raise e)
      | (tr2, OK (found, missing)) =>
          let (tr3, res) := options_step a all found missing in
          (tr1 ++ tr2 ++ tr3, res)
      end
  end.

End Driver.

(** ** A concrete catalogue for the examples *)

Definition fld (name content : string) : item :=
  {[ "name" := name; "content" := content ]}.

(** An entry as the catalogue returns it, for a scene of the given title,
    absolute orbit and relative orbit. *)
Definition sample_entry (title orbit track begin_ : string) : record :=
  {[ "title" := VStr title;
     "id" := VStr "0a1b";
     "int" := VItems [fld "orbitnumber" orbit; fld "relativeorbitnumber" track;
                      fld "slicenumber" "4"];
     "link" := VItems [ {[ "href" := "https://hub/Products('0a1b')/$value" ]};
                        {[ "rel" := "icon"; "href" := "https://hub/Products('0a1b')/icon" ]} ];
     "str" := VItems [fld "orbitdirection" "ASCENDING";
                      fld "footprint" "POLYGON ((0 0, 1 0, 1 1, 0 0))";
                      fld "platformname" "Sentinel-1"];
     "date" := VItems [fld "ingestiondate" "2017-04-09T12:00:00.000Z";
                       fld "beginposition" begin_;
                       fld "endposition" "2017-04-09T01:02:30.456Z"] ]}.

(** The [n]-th scene of a made-up catalogue: titles differ by their last
    component; orbit 16073 of Sentinel-1A is on track 76. *)
Definition scene (n : nat) : record :=
  sample_entry ("S1A_IW_SLC__1SDV_20170409T010203_" +:+ pretty n) "16073" "76"
               "2017-04-09T01:02:03.456Z".

Definition page (total : string) (es : entries) : response :=
  Response 200 (Some {| opensearch_totalResults := Some total; entry := Some es |}).

Definition last_page (total : string) : response :=
  Response 200 (Some {| opensearch_totalResults := Some total; entry := None |}).

(** A page with the scenes numbered [from], .., [from + count - 1]. *)
Definition scene_page (total : string) (from count : nat) : response :=
  page total (Many (scene <$> seq from count)).

Definition any_wkt : string -> bool := λ _, true.
Definition repr_none : value -> string := λ _, "".
Definition abspath_cwd (p : string) : string :=
  if decide (p = ".") then "/data/work" else p.
Definition no_dir : string -> bool := λ _, false.
Definition tmp_dirs (n : nat) : string := "/tmp/tmp" +:+ pretty n.

Definition sample_args (ingest create : bool) : scrape_args :=
  {| ds_es_url := "http://grq:9200/grq_v1.1_acquisition-s1-iw_slc/acquisition-S1-IW_SLC";
     ds_cfg := "/home/ops/verdi/etc/datasets.json";
     starttime := "2017-04-08T12:00:00.123456Z";
     endtime := "2017-04-09T12:00:00Z";
     version := "v1.1";
     ingest_missing := ingest;
     create_only := create;
     browse := false |}.

Definition scrape_sample := scrape any_wkt repr_none abspath_cwd no_dir tmp_dirs.

(** The scene [n] at the stages of its normalisation. *)
Definition scene_before_str (n : nat) : record :=
  match fields_before_str (scene n) with OK r => r | Raise _ => ∅ end.

Definition scene_before_dates (n : nat) : record :=
  match fields_before_dates (scene n) with OK r => r | Raise _ => ∅ end.

Definition scene_fields (n : nat) : record :=
  match massage_fields any_wkt repr_none (scene n) with OK r => r | Raise _ => ∅ end.

Definition scene_met (n : nat) : record :=
  match massage_result any_wkt repr_none (scene n) with OK r => r | Raise _ => ∅ end.

Definition scene_name (n : nat) : string :=
  "acquisition-S1A_IW_SLC__1SDV_20170409T010203_" +:+ pretty n.

Definition scene_ds (n : nat) : dataset :=
  {| ds_version := "v1.1";
     ds_label := VStr (scene_name n);
     ds_location := VLocation "POLYGON ((0 0, 1 0, 1 1, 0 0))";
     ds_starttime := VStr "2017-04-09T01:02:03.456";
     ds_endtime := VStr "2017-04-09T01:02:30.456" |}.

(** Pages of 100, 100 and 37 scenes, and the page without entries that
    follows them. *)
Definition full_pages : list response :=
  [scene_page "237" 0 100; scene_page "237" 100 100; scene_page "237" 200 37].

Definition empty_page : response := scene_page "237" 237 0.

(** The accumulator after the scenes numbered in [l] are filed in [a]. *)
Definition file_scene (a : accumulator) (n : nat) : accumulator :=
  {| prods_all := <[scene_name n := (scene_met n, scene_ds n)]> (prods_all a);
     ids_by_track :=
       <[inl 76 := default [] (ids_by_track a !! inl 76) ++ [scene_name n]]>
         (ids_by_track a) |}.

Definition scenes_filed (l : list nat) (a : accumulator) : accumulator :=
  foldl file_scene a l.

(** The accumulator after the given entries, from an empty one. *)
Definition filed_entries (es : list record) : accumulator :=
  match for_each (process_entry any_wkt repr_none "v1.1") es (acc initial_state) with
  | OK a => a
  | Raise _ => acc initial_state
  end.



Definition sample_query : string := scrape_query (sample_args false false).

(** ** Further notions for the properties of the normaliser *)

(** No character of the text is [c]. *)
Fixpoint lacks (c : ascii) (s : string) : bool :=
  match s with
  | EmptyString => true
  | String c' s' => negb (Ascii.eqb c' c) && lacks c s'
  end.

(** The keys of the four field groups of a raw entry. *)
Definition group_keys : list string := ["int"; "link"; "str"; "date"].

(** The key that a loop may write for an item: the name of a field, the
    relation of a link. *)
Definition names_no_group (i : item) : Prop :=
  (∀ k, i !! "name" = Some k -> k ∉ group_keys) ∧
  (∀ k, i !! "rel" = Some k -> k ∉ group_keys).

(** An entry whose four groups are lists of items none of which is named
    after a group. *)
Definition plain_groups (e : record) : Prop :=
  ∃ li ll ls ld,
    e !! "int" = Some (VItems li) ∧ e !! "link" = Some (VItems ll) ∧
    e !! "str" = Some (VItems ls) ∧ e !! "date" = Some (VItems ld) ∧
    Forall names_no_group (li ++ ll ++ ls ++ ld).

(** ** Further notions for the properties of the driver *)

(** Every record is filed under its own name with the descriptor made
    from it, and every name listed under a track is filed. *)
Definition acc_consistent (version : string) (a : accumulator) : Prop :=
  (∀ id met ds, prods_all a !! id = Some (met, ds) ->
     record_id met = Some id ∧ get_dataset_json met version = OK ds) ∧
  (∀ t ids, ids_by_track a !! t = Some ids ->
     ids ≠ [] ∧ Forall (λ id, is_Some (prods_all a !! id)) ids).

(** The numbers of the report that [scrape] logs: the count of
    [prods_all], and [(i, len(ids_by_track[i]))] for every track. *)
Definition total_on_apihub (a : accumulator) : nat := size (prods_all a).

Definition track_counts (a : accumulator) : list ((Z + string) * nat) :=
  (λ p, (p.1, length p.2)) <$> map_to_list (ids_by_track a).

(** The exception that ends a turn of the loop on a response: that of
    the transport, of the status, of the parser, or of indexing the parsed
    Element with a text. *)
Definition turn_failure (r : response) : exn :=
  match r with
  | ConnectionFailed => RequestException
  | Response status body =>
      if (400 <=? status) && (status <? 600) then HTTPError status
      else match body with
           | None => XMLSyntaxError
           | Some _ => TypeError
           end
  end.

(** The directories as a later call finds them: those that were there,
    and those that [os.makedirs] was called on in the events in between
    (the events of [create_acq_dataset] remove none). *)
Definition is_makedirs (ev : event) : bool :=
  match ev with EvMakedirs _ => true | _ => false end.

Definition makes_dir (p : string) (ev : event) : bool :=
  match ev with EvMakedirs q => String.eqb q p | _ => false end.

Definition isdir_after (isdir : string -> bool) (evs : list event) (p : string) : bool :=
  isdir p || bool_decide (Exists (λ ev, makes_dir p ev = true) evs).

(** Whether an exception is the configuration error of [scrape]. *)
Definition is_config_error (e : exn) : bool :=
  match e with
  | RuntimeError msg =>
      String.eqb msg "Cannot specify ingest_missing=True and create_only=True."
  | _ => false
  end.

(** ** The command line *)

(** What the command line gave: the two required positional arguments,
    the positional arguments after them (the start time, then the end
    time), the optional version, and the flags. (The credentials and the
    addresses for mail are passed on but not used by the model of
    [scrape].) A command line without one of the two required arguments is
    refused by the parser and is not represented. *)
Record command_line := {
  cl_ds_es_url : string;
  cl_datasets_cfg : string;
  cl_times : list string;
  cl_dataset_version : option string;
  cl_browse : bool;
  cl_ingest : bool;
  cl_create_only : bool
}.

(** What the script does besides [scrape]: it appends the text and the
    trace of an exception to two files. *)
Inductive main_event :=
| Scraped (ev : event)
| Appended (path : string) (e : exn).

(** How the script ends: the parser exits with its usage message, the
    script ends normally, or the exception of [scrape] is raised again. *)
Inductive main_outcome :=
| ExitUsage
| ExitNormal
| Reraised (e : exn).

Section Main.

Variable wkt_ok : string -> bool.
Variable py_repr : value -> string.
Variable abspath : string -> string.
Variable isdir : string -> bool.
Variable mkdtemp : nat -> string.

(** [datetime.utcnow().isoformat()] one day ago and now, as read when the
    parser is built. *)
Variable utc_yesterday : string.
Variable utc_now : string.

(** [parser.parse_args()]: [--ingest] and [--create_only] are in one
    mutually exclusive group, so the parser refuses a command line with
    both, as it refuses more than four positional arguments; a time that
    is not given has its default. *)
Definition parse_args (cl : command_line) : option scrape_args :=
  if cl_ingest cl && cl_create_only cl then None
  else if (2 <? length (cl_times cl))%nat then None
  else Some {| ds_es_url := cl_ds_es_url cl;
               ds_cfg := cl_datasets_cfg cl;
               starttime := default (utc_yesterday +:+ "Z") (cl_times cl !! 0%nat);
               endtime := default (utc_now +:+ "Z") (cl_times cl !! 1%nat);
               version := default "v1.1" (cl_dataset_version cl);
               ingest_missing := cl_ingest cl;
               create_only := cl_create_only cl;
               browse := cl_browse cl |}.

(** The body under [if __name__ == "__main__"]. *)
Definition main (cl : command_line) (script : list response)
    (rhead : string -> option Z) : list main_event * main_outcome :=
  match parse_args cl with
  | None => ([], ExitUsage)
  | Some a =>
      match scrape wkt_ok py_repr abspath isdir mkdtemp a script rhead with
      | (tr, OK _) => (Scraped <$> tr, ExitNormal)
      | (tr, Raise e) =>
          ((Scraped <$> tr) ++
           [Appended "_alt_error.txt" e; Appended "_alt_traceback.txt" e],
           Reraised e)
      end
  end.

End Main.

(** ** Further samples *)

(** One page with scene 0, then the page without entries. *)
Definition sample_script : list response := [scene_page "1" 0 1; last_page "1"].

(** An index that knows scene 0, lacks scene 1, fails on scene 2 and does
    not answer for anything else. *)
Definition sample_index (u : string) : option Z :=
  if decide (u = "http://grq/" +:+ scene_name 0) then Some 200
  else if decide (u = "http://grq/" +:+ scene_name 1) then Some 404
  else if decide (u = "http://grq/" +:+ scene_name 2) then Some 500
  else None.

(** An index that lacks everything. *)
Definition empty_index : string -> option Z := λ _, Some 404.

(** Scene 0 without its group of integers, and its record without the
    link to the browse picture. *)
Definition scene_no_int : record := delete "int" (scene 0).

Definition met_no_icon : record := delete "icon" (scene_met 0).

(** A command line with both flags, and one with [--create_only]. *)
Definition sample_command_line (ingest create : bool) : command_line :=
  {| cl_ds_es_url := "http://grq";
     cl_datasets_cfg := "/home/ops/verdi/etc/datasets.json";
     cl_times := ["2017-04-08T12:00:00Z"];
     cl_dataset_version := None;
     cl_browse := false;
     cl_ingest := ingest;
     cl_create_only := create |}.

(** * Properties *)

(** ** The error result *)

Lemma bind_OK {A B} (m : result A) (f : A -> result B) (b : B) :
  m ≫= f = OK b -> ∃ a, m = OK a ∧ f a = OK b.
Proof. destruct m as [a|e]; simpl; [eauto | discriminate]. Qed.

Lemma bind_Raise {A B} (m : result A) (f : A -> result B) (e : exn) :
  m = Raise e -> m ≫= f = Raise e.
Proof. intros ->. reflexivity. Qed.

Lemma result_cases {A} (m : result A) : (∃ a, m = OK a) ∨ (∃ e, m = Raise e).
Proof. destruct m; eauto. Qed.

Lemma getitem_OK {V} (d : gmap string V) (k : string) (v : V) :
  getitem d k = OK v ↔ d !! k = Some v.
Proof. unfold getitem. destruct (d !! k); split; congruence. Qed.

Lemma for_each_app {A S} (f : S -> A -> result S) (l1 l2 : list A) (s : S) :
  for_each f (l1 ++ l2) s = for_each f l1 s ≫= for_each f l2.
Proof.
  revert s. induction l1 as [|i l1 IH]; intros s; simpl; [reflexivity|].
  destruct (f s i); simpl; [apply IH | reflexivity].
Qed.

(** A loop fails as soon as one of its turns fails in every state. *)
Lemma for_each_fails {A S} (f : S -> A -> result S) (l : list A) (i : A) (s : S) :
  i ∈ l -> (∀ s', ∃ e, f s' i = Raise e) -> ∃ e, for_each f l s = Raise e.
Proof.
  intros Hin Hbad. revert s. induction l as [|j l IH]; intros s.
  - inversion Hin.
  - simpl. apply elem_of_cons in Hin as [->|Hin].
    + destruct (Hbad s) as [e ->]. eauto.
    + destruct (f s j) as [s'|e]; simpl; [apply IH, Hin | eauto].
Qed.

(** Peel the binds of a successful chain. *)
Ltac peel H :=
  repeat match type of H with
  | _ ≫= _ = OK _ =>
      let a := fresh "r" in let Ha := fresh "H" a in
      apply bind_OK in H as (a & Ha & H)
  end.

(** ** The normaliser *)

Section NormalizerFacts.

Variable wkt_ok : string -> bool.
Variable py_repr : value -> string.

Lemma set_platform_sets (res r : record) :
  set_platform res = OK r ->
  ∃ t g, res !! "title" = Some (VStr t) ∧ platform_re_search t = Some g ∧
         r = <["platform" := VStr ("Sentinel-1" +:+ g)]> res.
Proof.
  unfold set_platform. intros H. peel H. apply getitem_OK in Hr0.
  destruct r0 as [|t| | |]; try discriminate.
  destruct (platform_re_search t) as [g|] eqn:Hg; [|discriminate].
  injection H as <-. eauto.
Qed.

Lemma massage_fields_platform (res r : record) :
  massage_fields wkt_ok py_repr res = OK r ->
  ∃ g, r !! "platform" = Some (VStr ("Sentinel-1" +:+ g)).
Proof.
  unfold massage_fields. intros H. peel H.
  apply set_platform_sets in H as (t & g & _ & _ & ->).
  exists g. apply lookup_insert_eq.
Qed.

Lemma verify_track_same (r r' : record) : verify_track r = OK r' -> r' = r.
Proof. unfold verify_track. intros H. peel H. congruence. Qed.

Lemma check_track_OK (r : record) (base : Z) (msg : string) :
  check_track r base msg = OK () ↔ track_formula r base.
Proof.
  unfold check_track, track_formula, getitem, py_sub. split.
  - destruct (r !! "trackNumber") as [t|]; [|discriminate]. simpl.
    destruct (r !! "orbitNumber") as [[o| | | |]|]; try discriminate. simpl.
    case_decide as Hne; [discriminate|]. intros _.
    subst t. eauto.
  - intros (t & o & -> & -> & ->). simpl. case_decide; [congruence | reflexivity].
Qed.

Lemma check_track_cases (r : record) (base : Z) (msg : string) :
  check_track r base msg = OK () ∨ ∃ e, check_track r base msg = Raise e.
Proof. destruct (check_track r base msg) as [[]|e]; eauto. Qed.

Lemma verify_track_A (r : record) :
  r !! "platform" = Some (VStr "Sentinel-1A") ->
  verify_track r =
    (_ ← check_track r 73 "Failed to verify S1A relative orbit number and track number."; OK r).
Proof.
  intros Hp. unfold verify_track, getitem. rewrite Hp. cbn [mbind result_bind].
  destruct (decide (VStr "Sentinel-1A" = VStr "Sentinel-1A")) as [_|Hn]; [|congruence].
  destruct (decide (VStr "Sentinel-1A" = VStr "Sentinel-1B")) as [Hy|_]; [discriminate|].
  destruct (check_track r 73 _) as [[]|e]; reflexivity.
Qed.

Lemma verify_track_B (r : record) :
  r !! "platform" = Some (VStr "Sentinel-1B") ->
  verify_track r =
    (_ ← check_track r 27 "Failed to verify S1B relative orbit number and track number."; OK r).
Proof.
  intros Hp. unfold verify_track, getitem. rewrite Hp. cbn [mbind result_bind].
  destruct (decide (VStr "Sentinel-1B" = VStr "Sentinel-1A")) as [Hy|_]; [discriminate|].
  destruct (decide (VStr "Sentinel-1B" = VStr "Sentinel-1B")) as [_|Hn]; [|congruence].
  reflexivity.
Qed.

Lemma verify_track_other (r : record) (p : value) :
  r !! "platform" = Some p -> p ≠ VStr "Sentinel-1A" -> p ≠ VStr "Sentinel-1B" ->
  verify_track r = OK r.
Proof.
  intros Hp HA HB. unfold verify_track, getitem. rewrite Hp. cbn [mbind result_bind].
  destruct (decide (p = VStr "Sentinel-1A")); [contradiction|].
  destruct (decide (p = VStr "Sentinel-1B")); [contradiction|]. reflexivity.
Qed.

(** What the verification does once the platform calls for it. *)
Lemma checked_track (r : record) (base : Z) (msg : string) :
  ((_ ← check_track r base msg; OK r) = OK r ↔ track_formula r base) ∧
  (¬ track_formula r base -> ∃ e, (_ ← check_track r base msg; OK r) = Raise e).
Proof.
  clear wkt_ok py_repr.
  rewrite <- (check_track_OK r base msg).
  destruct (check_track r base msg) as [[]|e]; simpl; split; try tauto; eauto.
  split; discriminate.
Qed.

(** C2. An entry whose platform is Sentinel-1A is normalised only when
    its track number is (orbit number - 73) mod 175 + 1, one of Sentinel-1B
    only when it is (orbit number - 27) mod 175 + 1, and an entry that
    violates its formula raises; for any other platform the verification
    does nothing and the entry is returned as it stands. *)
Theorem C2_track_orbit_consistency (res r : record)
    (Hfields : massage_fields wkt_ok py_repr res = OK r) :
  (r !! "platform" = Some (VStr "Sentinel-1A") ->
     (massage_result wkt_ok py_repr res = OK r ↔ track_formula r 73) ∧
     (¬ track_formula r 73 -> ∃ e, massage_result wkt_ok py_repr res = Raise e)) ∧
  (r !! "platform" = Some (VStr "Sentinel-1B") ->
     (massage_result wkt_ok py_repr res = OK r ↔ track_formula r 27) ∧
     (¬ track_formula r 27 -> ∃ e, massage_result wkt_ok py_repr res = Raise e)) ∧
  (r !! "platform" ≠ Some (VStr "Sentinel-1A") ->
   r !! "platform" ≠ Some (VStr "Sentinel-1B") ->
     massage_result wkt_ok py_repr res = OK r) ∧
  (∀ res', massage_result wkt_ok py_repr res = OK res' -> res' = r).
Proof.
  unfold massage_result. rewrite Hfields. simpl. repeat split.
  - rewrite (verify_track_A r H). apply checked_track.
  - rewrite (verify_track_A r H). apply checked_track.
  - rewrite (verify_track_A r H). apply checked_track.
  - rewrite (verify_track_B r H). apply checked_track.
  - rewrite (verify_track_B r H). apply checked_track.
  - rewrite (verify_track_B r H). apply checked_track.
  - intros HA HB. destruct (massage_fields_platform _ _ Hfields) as [g Hp].
    apply (verify_track_other r _ Hp); congruence.
  - intros res'. apply verify_track_same.
Qed.

(** *** Which keys the later steps write *)

Lemma set_names_frame (res r : record) (k : string) :
  set_names py_repr res = OK r ->
  k ≠ "data_product_name" -> k ≠ "archive_filename" -> r !! k = res !! k.
Proof.
  unfold set_names. intros H Hk1 Hk2. peel H. injection H as <-.
  rewrite !lookup_insert_ne by congruence. reflexivity.
Qed.

Lemma set_footprint_frame (res r : record) (k : string) :
  set_footprint wkt_ok res = OK r -> k ≠ "location" -> k ≠ "bbox" -> r !! k = res !! k.
Proof.
  unfold set_footprint. intros H Hk1 Hk2. peel H.
  destruct r0; try discriminate. destruct (wkt_ok s); [|discriminate].
  injection H as <-. rewrite !lookup_insert_ne by congruence. reflexivity.
Qed.

Lemma set_platform_frame (res r : record) (k : string) :
  set_platform res = OK r -> k ≠ "platform" -> r !! k = res !! k.
Proof.
  intros H Hk. apply set_platform_sets in H as (t & g & _ & _ & ->).
  rewrite lookup_insert_ne by congruence. reflexivity.
Qed.

(** The key under which a date entry of the given name is stored. *)
Lemma set_date_field_frame (res r : record) (i : item) (k : string) :
  set_date_field res i = OK r ->
  i !! "name" ≠ Some k -> (k = "sensingStart" -> i !! "name" ≠ Some "beginposition") ->
  (k = "sensingStop" -> i !! "name" ≠ Some "endposition") ->
  r !! k = res !! k.
Proof.
  clear wkt_ok py_repr.
  unfold set_date_field. intros H Hk Hb He. peel H. apply getitem_OK in Hr0.
  repeat case_decide; subst; peel H; injection H as <-;
    apply lookup_insert_ne; intros <-; intuition congruence.
Qed.

Lemma date_loop_frame (l : list item) (res r : record) (k : string) :
  for_each set_date_field l res = OK r ->
  Forall (λ i, i !! "name" ≠ Some k ∧
               (k = "sensingStart" -> i !! "name" ≠ Some "beginposition") ∧
               (k = "sensingStop" -> i !! "name" ≠ Some "endposition")) l ->
  r !! k = res !! k.
Proof.
  clear wkt_ok py_repr.
  revert res. induction l as [|i l IH]; intros res H Hall; simpl in H.
  - congruence.
  - peel H. inversion Hall as [|? ? (H1 & H2 & H3) Hall']; subst.
    rewrite (IH _ H Hall'). eapply set_date_field_frame; eauto.
Qed.








(** *** The string group *)

Lemma set_str_field_frame (res r : record) (i : item) (k : string) :
  set_str_field res i = OK r ->
  i !! "name" ≠ Some k -> (k = "direction" -> i !! "name" ≠ Some "orbitdirection") ->
  (k = "sensingStop" -> i !! "name" ≠ Some "endposition") ->
  r !! k = res !! k.
Proof.
  clear wkt_ok py_repr.
  unfold set_str_field. intros H Hk Hd He.
  apply bind_OK in H as (name & Hn & H). apply getitem_OK in Hn.
  repeat case_decide; subst; try discriminate;
    apply bind_OK in H as (c & Hc & H); repeat case_decide; try discriminate;
    injection H as <-; apply lookup_insert_ne; intros <-; intuition congruence.
Qed.

Lemma str_loop_frame (l : list item) (res r : record) (k : string) :
  for_each set_str_field l res = OK r ->
  Forall (λ i, i !! "name" ≠ Some k ∧
               (k = "direction" -> i !! "name" ≠ Some "orbitdirection") ∧
               (k = "sensingStop" -> i !! "name" ≠ Some "endposition")) l ->
  r !! k = res !! k.
Proof.
  clear wkt_ok py_repr.
  revert res. induction l as [|i l IH]; intros res H Hall; simpl in H.
  - congruence.
  - apply bind_OK in H as (r1 & H1 & H).
    inversion Hall as [|? ? (Ha & Hb & Hc) Hall']; subst.
    rewrite (IH _ H Hall'). eapply set_str_field_frame; eauto.
Qed.

(** The direction written by the string loop reaches the normalised
    record when no later string entry and no date entry writes it. *)
Lemma direction_survives (entry r rd res' : record) (l1 l2 ld : list item) (i : item)
    (d : string) :
  fields_before_str entry = OK r ->
  r !! "str" = Some (VItems (l1 ++ i :: l2)) ->
  (∀ res, set_str_field res i = OK (<["direction" := VStr d]> res)) ->
  Forall (λ j, j !! "name" ≠ Some "direction" ∧ j !! "name" ≠ Some "orbitdirection") l2 ->
  fields_before_dates entry = OK rd ->
  rd !! "date" = Some (VItems ld) ->
  Forall (λ j, j !! "name" ≠ Some "direction") ld ->
  massage_result wkt_ok py_repr entry = OK res' ->
  res' !! "direction" = Some (VStr d).
Proof.
  intros Hpre Hstr Hi Hl2 Hpd Hdate Hld Hok.
  unfold massage_result in Hok. apply bind_OK in Hok as (rf & Hf & Hv).
  apply verify_track_same in Hv. subst rf.
  unfold massage_fields in Hf. rewrite Hpd in Hf. cbn [mbind result_bind] in Hf.
  apply bind_OK in Hf as (r2 & Hd & Hf). apply bind_OK in Hf as (rn & Hn & Hf).
  apply bind_OK in Hf as (rg & Hg & Hplat).
  rewrite (set_platform_frame _ _ _ Hplat) by discriminate.
  rewrite (set_footprint_frame _ _ _ Hg) by discriminate.
  rewrite (set_names_frame _ _ _ Hn) by discriminate.
  unfold set_date_fields, getitem in Hd. rewrite Hdate in Hd.
  cbn [mbind result_bind iter_items] in Hd.
  apply bind_OK in Hd as (rl & Hl & Hd). injection Hd as <-.
  rewrite lookup_delete_ne by discriminate.
  rewrite (date_loop_frame ld _ _ _ Hl).
  2:{ eapply Forall_impl; [exact Hld|]. intros j Hj. repeat split; [exact Hj | discriminate..]. }
  unfold fields_before_dates in Hpd. rewrite Hpre in Hpd. cbn [mbind result_bind] in Hpd.
  unfold set_str_fields, getitem in Hpd. rewrite Hstr in Hpd.
  cbn [mbind result_bind iter_items] in Hpd.
  apply bind_OK in Hpd as (rs & Hs & Hpd). injection Hpd as <-.
  rewrite lookup_delete_ne by discriminate.
  rewrite for_each_app in Hs. apply bind_OK in Hs as (r1 & _ & Hs).
  simpl in Hs. rewrite Hi in Hs. cbn [mbind result_bind] in Hs.
  rewrite (str_loop_frame l2 _ _ _ Hs).
  - apply lookup_insert_eq.
  - eapply Forall_impl; [exact Hl2|]. intros j [Hj1 Hj2].
    repeat split; [exact Hj1 | intros _; exact Hj2 | discriminate].
Qed.

(** A string entry that the loop rejects in every state makes the whole
    normalisation fail. *)
Lemma bad_str_entry_raises (entry r : record) (l : list item) (i : item) :
  fields_before_str entry = OK r ->
  r !! "str" = Some (VItems l) ->
  i ∈ l ->
  (∀ res, ∃ e, set_str_field res i = Raise e) ->
  ∃ e, massage_result wkt_ok py_repr entry = Raise e.
Proof.
  intros Hpre Hstr Hin Hbad.
  destruct (for_each_fails set_str_field l i r Hin Hbad) as [e He].
  exists e. unfold massage_result, massage_fields, fields_before_dates.
  rewrite Hpre. cbn [mbind result_bind].
  unfold set_str_fields, getitem. rewrite Hstr. cbn [mbind result_bind iter_items].
  rewrite He. reflexivity.
Qed.



(** C4. On a string entry named orbitdirection the normaliser stores
    direction = dsc for DESCENDING and direction = asc for ASCENDING, and
    raises for every other text; the stored direction is the one of the
    normalised record when nothing later writes that key, and an entry
    with a third text is never normalised. *)
Theorem C4_orbit_direction (i : item) (c : string)
    (Hname : i !! "name" = Some "orbitdirection")
    (Hcontent : i !! "content" = Some c) :
  (c = "DESCENDING" -> ∀ res, set_str_field res i = OK (<["direction" := VStr "dsc"]> res)) ∧
  (c = "ASCENDING" -> ∀ res, set_str_field res i = OK (<["direction" := VStr "asc"]> res)) ∧
  (c ≠ "DESCENDING" -> c ≠ "ASCENDING" ->
     (∀ res, set_str_field res i =
               Raise (RuntimeError ("Failed to recognize orbit direction: " +:+ c))) ∧
     (∀ entry r l, fields_before_str entry = OK r -> r !! "str" = Some (VItems l) ->
        i ∈ l -> ∃ e, massage_result wkt_ok py_repr entry = Raise e)) ∧
  (∀ entry r rd res' l1 l2 ld,
     fields_before_str entry = OK r ->
     r !! "str" = Some (VItems (l1 ++ i :: l2)) ->
     Forall (λ j, j !! "name" ≠ Some "direction" ∧ j !! "name" ≠ Some "orbitdirection") l2 ->
     fields_before_dates entry = OK rd ->
     rd !! "date" = Some (VItems ld) ->
     Forall (λ j, j !! "name" ≠ Some "direction") ld ->
     massage_result wkt_ok py_repr entry = OK res' ->
     (c = "DESCENDING" ∧ res' !! "direction" = Some (VStr "dsc")) ∨
     (c = "ASCENDING" ∧ res' !! "direction" = Some (VStr "asc"))).
Proof.
  assert (Hd : c = "DESCENDING" ->
            ∀ res, set_str_field res i = OK (<["direction" := VStr "dsc"]> res)).
  { intros -> res. unfold set_str_field, getitem. rewrite Hname, Hcontent. reflexivity. }
  assert (Ha : c = "ASCENDING" ->
            ∀ res, set_str_field res i = OK (<["direction" := VStr "asc"]> res)).
  { intros -> res. unfold set_str_field, getitem. rewrite Hname, Hcontent. reflexivity. }
  assert (Hbad : c ≠ "DESCENDING" -> c ≠ "ASCENDING" -> ∀ res, set_str_field res i =
            Raise (RuntimeError ("Failed to recognize orbit direction: " +:+ c))).
  { intros H1 H2 res. unfold set_str_field, getitem. rewrite Hname, Hcontent.
    cbn [mbind result_bind].
    destruct (decide ("orbitdirection" = "orbitdirection")) as [_|Hn]; [|congruence].
    cbn [mbind result_bind]. repeat case_decide; congruence. }
  split; [exact Hd|]. split; [exact Ha|]. split.
  - intros H1 H2. split; [exact (Hbad H1 H2)|].
    intros entry r l Hpre Hstr Hin.
    apply (bad_str_entry_raises entry r l i Hpre Hstr Hin).
    intros res. rewrite (Hbad H1 H2). eauto.
  - intros entry r rd res' l1 l2 ld Hpre Hstr Hl2 Hpd Hdate Hld Hok.
    destruct (decide (c = "DESCENDING")) as [HD|HD].
    { left. split; [exact HD|]. eapply direction_survives; eauto. }
    destruct (decide (c = "ASCENDING")) as [HA|HA].
    { right. split; [exact HA|]. eapply direction_survives; eauto. }
    exfalso.
    destruct (bad_str_entry_raises entry r (l1 ++ i :: l2) i Hpre Hstr) as [e He].
    + apply elem_of_app. right. apply elem_of_cons. left. reflexivity.
    + intros res. rewrite (Hbad HD HA). eauto.
    + congruence.
Qed.

(** The normalised record is filed under a text made from its title. *)
Lemma massage_result_name (entry res' : record) :
  massage_result wkt_ok py_repr entry = OK res' ->
  ∃ t, res' !! "title" = Some (VStr t) ∧
       res' !! "data_product_name" = Some (VStr ("acquisition-" +:+ t)).
Proof.
  intros Hok. unfold massage_result in Hok. apply bind_OK in Hok as (rf & Hf & Hv).
  apply verify_track_same in Hv. subst rf.
  unfold massage_fields in Hf.
  apply bind_OK in Hf as (rd & _ & Hf). apply bind_OK in Hf as (r2 & _ & Hf).
  apply bind_OK in Hf as (rn & Hn & Hf). apply bind_OK in Hf as (rg & Hg & Hplat).
  pose proof (set_platform_sets _ _ Hplat) as (t & g & Ht & _ & ->).
  exists t. rewrite !lookup_insert_ne by discriminate. split; [exact Ht|].
  rewrite (set_footprint_frame _ _ "title" Hg) in Ht by discriminate.
  rewrite (set_footprint_frame _ _ "data_product_name" Hg) by discriminate.
  rewrite (set_names_frame _ _ "title" Hn) in Ht by discriminate.
  unfold set_names in Hn. apply bind_OK in Hn as (v & Hv & Hn).
  apply bind_OK in Hn as (v' & Hv' & Hn). injection Hn as <-.
  rewrite lookup_insert_ne by discriminate. rewrite lookup_insert_eq.
  apply getitem_OK in Hv. rewrite Hv in Ht. injection Ht as ->. reflexivity.
Qed.

End NormalizerFacts.

(** ** Datasets *)

Section DatasetFacts.

Variable abspath : string -> string.
Variable isdir : string -> bool.

(** C10. [create_acq_dataset] adds query_api = odata to the met record it
    is given, in place and before the met file is written (the file holds
    the record with the key); every other key of the record is as before,
    and the id returned is the data_product_name of the record. *)
Theorem C10_create_acq_dataset_adds_query_api (ds : dataset) (met : record)
    (root_ds_dir id : string) (browse : bool)
    (Hid : met !! "data_product_name" = Some (VStr id)) :
  let out := create_acq_dataset abspath isdir ds met root_ds_dir browse in
  let ds_dir := os_path_join (abspath root_ds_dir) id in
  met_after out = <["query_api" := VStr "odata"]> met ∧
  met_after out !! "query_api" = Some (VStr "odata") ∧
  (∀ k, k ≠ "query_api" -> met_after out !! k = met !! k) ∧
  EvWrite (os_path_join ds_dir (id +:+ ".met.json")) (JMet (met_after out)) ∈ acq_events out ∧
  (∀ path m, EvWrite path (JMet m) ∈ acq_events out -> m !! "query_api" = Some (VStr "odata")) ∧
  (∀ id' dir, acq_returned out = OK (id', dir) -> id' = id ∧ dir = ds_dir) ∧
  (browse = false ∨ is_Some (met !! "icon") -> acq_returned out = OK (id, ds_dir)).
Proof.
  intros out ds_dir. subst out ds_dir. unfold create_acq_dataset, getitem. rewrite Hid.
  assert (Hicon : (<["query_api" := VStr "odata"]> met : record) !! "icon" = met !! "icon").
  { apply lookup_insert_ne. discriminate. }
  rewrite Hicon.
  assert (Hw : ∀ (l : list event) path m,
    EvWrite path (JMet m) ∈
      (if isdir (os_path_join (abspath root_ds_dir) id) then []
       else [EvMakedirs (os_path_join (abspath root_ds_dir) id)]) ++
      [EvWrite (os_path_join (os_path_join (abspath root_ds_dir) id) (id +:+ ".dataset.json"))
         (JDataset ds);
       EvWrite (os_path_join (os_path_join (abspath root_ds_dir) id) (id +:+ ".met.json"))
         (JMet (<["query_api" := VStr "odata"]> met))] ++ l ->
    Forall (λ ev, ∀ p m', ev ≠ EvWrite p (JMet m')) l ->
    m = <["query_api" := VStr "odata"]> met).
  { intros l path m Hin Hl. apply elem_of_app in Hin as [Hin|Hin].
    - destruct (isdir _); [inversion Hin|].
      apply list_elem_of_singleton in Hin. discriminate.
    - apply elem_of_cons in Hin as [Hin|Hin]; [discriminate|].
      apply elem_of_cons in Hin as [Hin|Hin]; [congruence|].
      rewrite Forall_forall in Hl. exfalso. exact (Hl _ Hin path m eq_refl). }
  destruct browse; [destruct (met !! "icon") as [icon|] eqn:Hi|]; simpl;
    (split; [reflexivity|]); (split; [apply lookup_insert_eq|]);
    (split; [intros k Hk; apply lookup_insert_ne; congruence|]).
  - split; [apply elem_of_app; right; apply elem_of_cons; right; apply elem_of_cons; left; reflexivity|].
    split.
    { intros path m Hin. rewrite (Hw _ path m Hin); [apply lookup_insert_eq|].
      repeat constructor; discriminate. }
    split; [intros id' dir [= <- <-]; auto|]. reflexivity.
  - split; [apply elem_of_app; right; apply elem_of_cons; right; apply elem_of_cons; left; reflexivity|].
    split.
    { intros path m Hin. rewrite (Hw [] path m); [apply lookup_insert_eq| |constructor].
      exact Hin. }
    split; [discriminate|]. intros [H|[x H]]; discriminate.
  - split; [apply elem_of_app; right; apply elem_of_cons; right; apply elem_of_cons; left; reflexivity|].
    split.
    { intros path m Hin. rewrite (Hw [] path m); [apply lookup_insert_eq| |constructor].
      exact Hin. }
    split; [intros id' dir [= <- <-]; auto|]. reflexivity.
Qed.

End DatasetFacts.

(** ** The driver *)

Section DriverFacts.

Variable wkt_ok : string -> bool.
Variable py_repr : value -> string.
Variable abspath : string -> string.
Variable isdir : string -> bool.
Variable mkdtemp : nat -> string.

(** *** The accumulator *)

Lemma accumulate_OK (version : string) (a a' : accumulator) (met : record) :
  accumulate version a met = OK a' ->
  ∃ id t ds, record_id met = Some id ∧ record_track met = Some t ∧
    get_dataset_json met version = OK ds ∧
    prods_all a' = <[id := (met, ds)]> (prods_all a) ∧
    ids_by_track a' = <[t := default [] (ids_by_track a !! t) ++ [id]]> (ids_by_track a).
Proof.
  unfold accumulate. intros H.
  apply bind_OK in H as (ds & Hds & H). apply bind_OK in H as (name & Hname & H).
  apply bind_OK in H as (id & Hid & H). apply bind_OK in H as (track & Htrack & H).
  apply bind_OK in H as (t & Ht & H). injection H as <-.
  apply getitem_OK in Hname, Htrack.
  exists id, t, ds. unfold record_id, record_track. rewrite Hname, Htrack.
  destruct name; try discriminate. injection Hid as ->.
  destruct track; try discriminate; injection Ht as <-; auto.
Qed.

Lemma process_entries_normalised (version : string) (es : list record)
    (a a' : accumulator) :
  for_each (process_entry wkt_ok py_repr version) es a = OK a' ->
  ∃ ms, Forall2 (λ e m, massage_result wkt_ok py_repr e = OK m) es ms ∧
        for_each (accumulate version) ms a = OK a'.
Proof.
  revert a. induction es as [|e es IH]; intros a H; simpl in H.
  - exists []. split; [constructor | exact H].
  - apply bind_OK in H as (a1 & H1 & H). unfold process_entry in H1.
    apply bind_OK in H1 as (m & Hm & H1). destruct (IH _ H) as (ms & Hms & Hacc).
    exists (m :: ms). split; [constructor; assumption|]. simpl. rewrite H1. exact Hacc.
Qed.

Lemma accumulate_all_prods (version : string) (ms : list record) (a a' : accumulator) :
  for_each (accumulate version) ms a = OK a' ->
  ∀ id, prods_all a' !! id =
    match last (filter (λ m, record_id m = Some id) ms) with
    | Some m => match get_dataset_json m version with
                | OK ds => Some (m, ds)
                | Raise _ => None
                end
    | None => prods_all a !! id
    end.
Proof.
  revert a. induction ms as [|m ms IH]; intros a H id; simpl in H.
  - injection H as <-. reflexivity.
  - apply bind_OK in H as (a1 & H1 & H). rewrite (IH _ H id).
    apply accumulate_OK in H1 as (id1 & t & ds & Hid & _ & Hds & Hp & _).
    rewrite filter_cons. case_decide as Hm.
    + rewrite last_cons. destruct (last (filter _ ms)); [reflexivity|].
      rewrite Hds, Hp. assert (id1 = id) as -> by congruence. apply lookup_insert_eq.
    + destruct (last (filter _ ms)); [reflexivity|].
      rewrite Hp. apply lookup_insert_ne. congruence.
Qed.

Lemma accumulate_all_buckets (version : string) (ms : list record) (a a' : accumulator) :
  for_each (accumulate version) ms a = OK a' ->
  ∀ t, default [] (ids_by_track a' !! t) =
       default [] (ids_by_track a !! t) ++
       omap record_id (filter (λ m, record_track m = Some t) ms).
Proof.
  revert a. induction ms as [|m ms IH]; intros a H t; simpl in H.
  - injection H as <-. simpl. rewrite app_nil_r. reflexivity.
  - apply bind_OK in H as (a1 & H1 & H). rewrite (IH _ H t).
    apply accumulate_OK in H1 as (id1 & t1 & ds & Hid & Ht & _ & _ & Hb).
    rewrite filter_cons. case_decide as Hm.
    + assert (t1 = t) as -> by congruence.
      rewrite Hb, lookup_insert_eq. simpl. rewrite Hid. rewrite <- app_assoc. reflexivity.
    + rewrite Hb, lookup_insert_ne by congruence. reflexivity.
Qed.

Lemma accumulate_all_filed (version : string) (ms : list record) (a a' : accumulator) :
  for_each (accumulate version) ms a = OK a' ->
  ∀ m, m ∈ ms ->
    is_Some (record_id m) ∧ is_Some (record_track m) ∧
    ∃ ds, get_dataset_json m version = OK ds.
Proof.
  revert a. induction ms as [|m0 ms IH]; intros a H m Hin; [inversion Hin|].
  simpl in H. apply bind_OK in H as (a1 & H1 & H).
  apply elem_of_cons in Hin as [->|Hin]; [|exact (IH _ H m Hin)].
  apply accumulate_OK in H1 as (id & t & ds & Hid & Ht & Hds & _). eauto.
Qed.

(** C8. Entries that are normalised and filed one after the other leave,
    under each name, the record of the last entry of that name (a later
    entry replaces an earlier one), while the bucket of each track receives
    the name of every entry of that track, in order and with repetitions. *)
Theorem C8_last_write_wins_buckets_append (version : string) (es : list record)
    (a a' : accumulator)
    (Hrun : for_each (process_entry wkt_ok py_repr version) es a = OK a') :
  ∃ ms, Forall2 (λ e m, massage_result wkt_ok py_repr e = OK m) es ms ∧
    (∀ id m, last (filter (λ m, record_id m = Some id) ms) = Some m ->
       ∃ ds, get_dataset_json m version = OK ds ∧ prods_all a' !! id = Some (m, ds)) ∧
    (∀ id, filter (λ m, record_id m = Some id) ms = [] ->
       prods_all a' !! id = prods_all a !! id) ∧
    (∀ t, default [] (ids_by_track a' !! t) =
          default [] (ids_by_track a !! t) ++
          omap record_id (filter (λ m, record_track m = Some t) ms)) ∧
    (∀ m, m ∈ ms -> is_Some (record_id m) ∧ is_Some (record_track m)).
Proof.
  clear abspath isdir mkdtemp.
  destruct (process_entries_normalised _ _ _ _ Hrun) as (ms & Hms & Hacc).
  exists ms. split; [exact Hms|]. split; [|split; [|split]].
  - intros id m Hlast. pose proof (accumulate_all_prods _ _ _ _ Hacc id) as Hp.
    rewrite Hlast in Hp.
    assert (Hin : m ∈ ms).
    { apply last_Some in Hlast as [l' Hl'].
      assert (m ∈ filter (λ m, record_id m = Some id) ms) as Hf
        by (rewrite Hl'; apply elem_of_app; right; apply list_elem_of_singleton; reflexivity).
      apply list_elem_of_filter in Hf. tauto. }
    destruct (accumulate_all_filed _ _ _ _ Hacc m Hin) as (_ & _ & ds & Hds).
    rewrite Hds in Hp. eauto.
  - intros id Hnone. rewrite (accumulate_all_prods _ _ _ _ Hacc id), Hnone. reflexivity.
  - apply (accumulate_all_buckets _ _ _ _ Hacc).
  - intros m Hin. destruct (accumulate_all_filed _ _ _ _ Hacc m Hin) as (? & ? & _). auto.
Qed.

(** *** Filing the entries of pages *)

Lemma file_pages_concat (v : string) (pages : list response) (a : accumulator) :
  file_pages wkt_ok py_repr v pages a =
  for_each (process_entry wkt_ok py_repr v) (concat (page_entries <$> pages)) a.
Proof.
  revert a. unfold file_pages. induction pages as [|r pages IH]; intros a; simpl.
  - reflexivity.
  - rewrite for_each_app. destruct (for_each _ (page_entries r) a); simpl;
      [apply IH | reflexivity].
Qed.

(** *** The query loop *)

(** A turn of the loop ends in an exception on every response: that of
    the transport, of the status or of the parser, and on a body that
    parses the [TypeError] of [results['feed']]. The request is its only
    event. *)
Lemma loop_body_raises (q v : string) (r : response) (st : loop_state) :
  loop_body wkt_ok py_repr q v r st = ([EvGet q (offset st) 100], Raise (turn_failure r)).
Proof.
  clear abspath isdir mkdtemp.
  unfold loop_body, turn_failure, raise_for_status, element_getitem.
  destruct r as [|status [f|]]; [reflexivity|..];
    destruct ((400 <=? status) && (status <? 600)); try reflexivity.
  cbn [mbind result_bind]. destruct (total_results_expected st); reflexivity.
Qed.

Lemma query_loop_raises (q v : string) (r : response) (rest : list response)
    (st : loop_state) :
  query_loop wkt_ok py_repr q v (r :: rest) st =
    ([EvGet q (offset st) 100], Raise (turn_failure r)).
Proof.
  clear abspath isdir mkdtemp.
  cbn [query_loop]. rewrite loop_body_raises. reflexivity.
Qed.

Lemma turn_failure_kind (r : response) : is_config_error (turn_failure r) = false.
Proof.
  clear wkt_ok py_repr abspath isdir mkdtemp.
  unfold turn_failure. destruct r as [|status [f|]]; [reflexivity|..];
    destruct ((400 <=? status) && (status <? 600)); reflexivity.
Qed.

(** The loop makes one request and raises, whatever the script. *)
Lemma query_loop_one_request (q v : string) (script : list response) (st : loop_state) :
  ∃ e, query_loop wkt_ok py_repr q v script st = ([EvGet q (offset st) 100], Raise e) ∧
       is_config_error e = false.
Proof.
  clear abspath isdir mkdtemp.
  destruct script as [|r rest].
  - exists StopIteration. split; reflexivity.
  - exists (turn_failure r). split; [apply query_loop_raises | apply turn_failure_kind].
Qed.

Lemma scrape_of_failed_loop (a : scrape_args) (script : list response)
    (rhead : string -> option Z) (tr : list event) (err : exn) :
  query_loop wkt_ok py_repr (scrape_query a) (version a) script initial_state
    = (tr, Raise err) ->
  scrape wkt_ok py_repr abspath isdir mkdtemp a script rhead = (tr, Raise err).
Proof. intros H. unfold scrape. rewrite H. reflexivity. Qed.

Lemma scrape_raises (a : scrape_args) (r : response) (rest : list response)
    (rhead : string -> option Z) :
  scrape wkt_ok py_repr abspath isdir mkdtemp a (r :: rest) rhead =
    ([EvGet (scrape_query a) 0 100], Raise (turn_failure r)).
Proof. apply scrape_of_failed_loop. apply query_loop_raises. Qed.

Lemma scrape_one_request (a : scrape_args) (script : list response)
    (rhead : string -> option Z) :
  ∃ e, scrape wkt_ok py_repr abspath isdir mkdtemp a script rhead =
         ([EvGet (scrape_query a) 0 100], Raise e) ∧
       is_config_error e = false.
Proof.
  destruct (query_loop_one_request (scrape_query a) (version a) script initial_state)
    as (e & He & Hk).
  exists e. split; [apply scrape_of_failed_loop; exact He | exact Hk].
Qed.

(** C5, as the code has it. The loop never reaches its test for a page
    without entries: on a first page that is received and parses,
    whatever total and entries it holds and whatever pages follow,
    [results['feed']] raises TypeError right after the request, so the
    loop makes one request and files nothing. On pages of 100, 100, 37 and
    0 entries that is 1 request and no record, not 4 and 237. *)
Theorem C5_loop_raises_on_first_parsed_page (q v : string) (status : Z) (f : feed)
    (rest : list response) (st : loop_state)
    (Hstatus : ¬ (400 <= status < 600)) :
  query_loop wkt_ok py_repr q v (Response status (Some f) :: rest) st =
    ([EvGet q (offset st) 100], Raise TypeError).
Proof.
  clear abspath isdir mkdtemp.
  rewrite query_loop_raises. unfold turn_failure.
  destruct ((400 <=? status) && (status <? 600)) eqn:Hb; [|reflexivity].
  apply andb_true_iff in Hb as [H1 H2]. lia.
Qed.

(** *** A lone entry *)

(** C6. Once the entries of a page are at hand, the lone entry and the
    list of that one entry are processed alike: the same flag, offset,
    accumulator and buckets, or the same exception. When the entry
    normalises it is filed under its name and appended to the bucket of
    its track, the offset moves by one and the loop is to go on; only the
    dump written to res.json differs. A whole turn of the loop on a page
    of either form has the same events and the same outcome. *)
Theorem C6_lone_entry_is_one_element_list (q v : string) (e : record) (total : Z)
    (st : loop_state) :
  (process_page wkt_ok py_repr v (Lone e) total st).2 =
    (process_page wkt_ok py_repr v (Many [e]) total st).2 ∧
  (∀ met a',
     massage_result wkt_ok py_repr e = OK met -> accumulate v (acc st) met = OK a' ->
     process_page wkt_ok py_repr v (Lone e) total st =
       ([EvWrite "res.json" (JEntries (Lone e)); EvSleep 3],
        OK (true, {| offset := offset st + 1; total_results_expected := Some total;
                     acc := a' |})) ∧
     process_page wkt_ok py_repr v (Many [e]) total st =
       ([EvWrite "res.json" (JEntries (Many [e])); EvSleep 3],
        OK (true, {| offset := offset st + 1; total_results_expected := Some total;
                     acc := a' |})) ∧
     ∃ id t ds, record_id met = Some id ∧ record_track met = Some t ∧
       get_dataset_json met v = OK ds ∧
       prods_all a' !! id = Some (met, ds) ∧
       ids_by_track a' !! t = Some (default [] (ids_by_track (acc st) !! t) ++ [id])) ∧
  (∀ status declared,
     loop_body wkt_ok py_repr q v
       (Response status (Some {| opensearch_totalResults := declared;
                                 entry := Some (Lone e) |})) st =
     loop_body wkt_ok py_repr q v
       (Response status (Some {| opensearch_totalResults := declared;
                                 entry := Some (Many [e]) |})) st).
Proof.
  clear abspath isdir mkdtemp.
  split; [|split].
  - unfold process_page. cbn [as_list].
    destruct (for_each (process_entry wkt_ok py_repr v) [e] (acc st)); reflexivity.
  - intros met a' Hmet Hacc.
    assert (Hrun : for_each (process_entry wkt_ok py_repr v) [e] (acc st) = OK a').
    { cbn [for_each]. unfold process_entry. rewrite Hmet. cbn [mbind result_bind].
      rewrite Hacc. reflexivity. }
    split; [|split].
    + unfold process_page. cbn [as_list]. rewrite Hrun. reflexivity.
    + unfold process_page. cbn [as_list]. rewrite Hrun. reflexivity.
    + destruct (accumulate_OK _ _ _ _ Hacc) as (id & t & ds & Hid & Ht & Hds & Hp & Hb).
      exists id, t, ds. rewrite Hp, Hb, !lookup_insert_eq. auto.
  - intros status declared. rewrite !loop_body_raises. reflexivity.
Qed.

(** *** The query window *)






(** *** The options *)

(** C1, as the code has it. With ingest_missing and create_only both set
    the pair is not refused up front: [scrape] first makes the page request
    of the query loop, it never returns normally and it never creates or
    ingests a dataset. The two options are tested at the step after the
    query loop and the existence check, where the pair raises the
    configuration error before any dataset is made. *)
Theorem C1_request_precedes_option_test (a : scrape_args) (script : list response)
    (rhead : string -> option Z)
    (Hingest : ingest_missing a = true) (Hcreate : create_only a = true) :
  let out := scrape wkt_ok py_repr abspath isdir mkdtemp a script rhead in
  (∃ tl, out.1 = EvGet (scrape_query a) 0 100 :: tl) ∧
  (∃ e, out.2 = Raise e) ∧
  Forall (λ ev, is_dataset_event ev = false) out.1 ∧
  (∀ all found missing,
     options_step abspath isdir mkdtemp a all found missing = ([], Raise CONFIG_ERROR)).
Proof.
  intros out. subst out.
  destruct (scrape_one_request a script rhead) as (e & -> & _).
  split; [eexists; reflexivity|]. split; [eexists; reflexivity|]. split.
  - repeat constructor.
  - intros all found missing. unfold options_step. rewrite Hingest, Hcreate. reflexivity.
Qed.

(** *** The existence check *)

(** When every probe answers 200 or 404 the check ends without an
    exception and sorts every name into found or missing by that answer. *)
Lemma check_exists_partition (rhead : string -> option Z) (url : string)
    (ids found missing : list string) :
  Forall (λ id, rhead (url +:+ "/" +:+ id) = Some 200 ∨
                rhead (url +:+ "/" +:+ id) = Some 404) ids ->
  (check_exists rhead url ids found missing).2 =
    OK (found ++ filter (λ id, rhead (url +:+ "/" +:+ id) = Some 200) ids,
        missing ++ filter (λ id, rhead (url +:+ "/" +:+ id) = Some 404) ids).
Proof.
  revert found missing. induction ids as [|id ids IH]; intros found missing Hall.
  - simpl. rewrite !app_nil_r. reflexivity.
  - inversion Hall as [|? ? Hid Hall']; subst. rewrite !filter_cons.
    cbn [check_exists]. destruct Hid as [Hid|Hid]; rewrite Hid.
    + change (200 =? 200)%Z with true. cbn iota.
      specialize (IH (found ++ [id]) missing Hall').
      destruct (check_exists rhead url ids (found ++ [id]) missing) as [tr res].
      simpl in IH |- *. rewrite IH.
      destruct (decide (Some 200 = Some 200)) as [_|Hn]; [|congruence].
      destruct (decide (Some 200 = Some 404)) as [Hy|_]; [discriminate|].
      rewrite <- app_assoc. reflexivity.
    + change (404 =? 200)%Z with false. change (404 =? 404)%Z with true. cbn iota.
      specialize (IH found (missing ++ [id]) Hall').
      destruct (check_exists rhead url ids found (missing ++ [id])) as [tr res].
      simpl in IH |- *. rewrite IH.
      destruct (decide (Some 404 = Some 200)) as [Hy|_]; [discriminate|].
      destruct (decide (Some 404 = Some 404)) as [_|Hn]; [|congruence].
      rewrite <- app_assoc. reflexivity.
Qed.

(** A probe that answers a client or server error other than 404 ends the
    check with that error. *)
Lemma check_exists_error (rhead : string -> option Z) (url : string)
    (id : string) (ids found missing : list string) (status : Z) :
  rhead (url +:+ "/" +:+ id) = Some status ->
  400 <= status < 600 -> status ≠ 404 ->
  check_exists rhead url (id :: ids) found missing =
    ([EvHead (url +:+ "/" +:+ id)], Raise (HTTPError status)).
Proof.
  intros Hp Hr Hne. simpl. rewrite Hp.
  destruct (status =? 200)%Z eqn:H200; [lia|].
  destruct (status =? 404)%Z eqn:H404; [lia|].
  unfold raise_for_status.
  destruct ((400 <=? status) && (status <? 600)) eqn:Hb; [reflexivity|].
  apply andb_false_iff in Hb as [Hb|Hb]; lia.
Qed.

End DriverFacts.

(** ** The sample catalogue *)

(** With the names of the found and of the missing taken as sets, the
    check splits the names it was given. *)
Lemma check_exists_sets (rhead : string -> option Z) (url : string) (ids : list string) :
  Forall (λ id, rhead (url +:+ "/" +:+ id) = Some 200 ∨
                rhead (url +:+ "/" +:+ id) = Some 404) ids ->
  ∃ found missing, (check_exists rhead url ids [] []).2 = OK (found, missing) ∧
    (∀ id, id ∈ ids ↔ id ∈ found ∨ id ∈ missing) ∧
    (∀ id, ¬ (id ∈ found ∧ id ∈ missing)).
Proof.
  intros Hall. rewrite (check_exists_partition rhead url ids [] [] Hall). simpl.
  eexists _, _. split; [reflexivity|]. split.
  - intros id. rewrite !list_elem_of_filter. split; [|tauto].
    intros Hin. rewrite Forall_forall in Hall. destruct (Hall id Hin); tauto.
  - intros id. rewrite !list_elem_of_filter. intros [[H1 _] [H2 _]]. congruence.
Qed.

(** C7, as the code has it. A probe that answers a status other than 200
    and 404 and outside 400 to 599 (a redirect, say) raises nothing: the
    check goes on with the name in neither list, so a check over that one
    name ends normally with nothing found and nothing missing. *)
Theorem C7_redirect_probe_is_not_an_error (rhead : string -> option Z) (url : string)
    (id : string) (ids found missing : list string) (status : Z)
    (Hprobe : rhead (url +:+ "/" +:+ id) = Some status)
    (H200 : status ≠ 200) (H404 : status ≠ 404) (Hrange : ¬ (400 <= status < 600)) :
  check_exists rhead url (id :: ids) found missing =
    (EvHead (url +:+ "/" +:+ id) :: (check_exists rhead url ids found missing).1,
     (check_exists rhead url ids found missing).2) ∧
  check_exists rhead url [id] [] [] = ([EvHead (url +:+ "/" +:+ id)], OK ([], [])).
Proof.
  assert (Hstep : ∀ ids' f m, check_exists rhead url (id :: ids') f m =
            (EvHead (url +:+ "/" +:+ id) :: (check_exists rhead url ids' f m).1,
             (check_exists rhead url ids' f m).2)).
  { intros ids' f m. cbn [check_exists]. rewrite Hprobe.
    destruct (status =? 200)%Z eqn:E200; [lia|].
    destruct (status =? 404)%Z eqn:E404; [lia|].
    unfold raise_for_status.
    destruct ((400 <=? status) && (status <? 600)) eqn:Hb.
    - apply andb_true_iff in Hb as [? ?]. lia.
    - cbn [mbind result_bind]. destruct (check_exists rhead url ids' f m). reflexivity. }
  split; [apply Hstep|]. rewrite Hstep. reflexivity.
Qed.

(** With both options set the first thing done is the page request, and
    the run ends there on the body that parses: the configuration error is
    not raised, before or after. *)
Lemma C1_counterexample :
  let out := scrape_sample (sample_args true true) sample_script empty_index in
  out = ([EvGet sample_query 0 100], Raise TypeError) ∧
  ¬ Forall (λ ev, is_network ev = false) out.1 ∧
  out.2 ≠ Raise CONFIG_ERROR.
Proof.
  intros out.
  assert (Hout : out = ([EvGet sample_query 0 100], Raise TypeError)) by reflexivity.
  split; [exact Hout|]. rewrite Hout. split.
  - intros H. inversion H as [|? ? Hget _]. discriminate Hget.
  - discriminate.
Qed.

(** C1 on that run. *)
Lemma C1_witness :
  ∃ tl, (scrape_sample (sample_args true true) sample_script empty_index).1 =
        EvGet (scrape_query (sample_args true true)) 0 100 :: tl.
Proof.
  exact (proj1 (C1_request_precedes_option_test any_wkt repr_none abspath_cwd no_dir tmp_dirs
                  (sample_args true true) sample_script empty_index eq_refl eq_refl)).
Defined.

(** C7 on a probe that answers 301. *)
Lemma C7_witness :
  check_exists (λ _, Some 301) "http://grq" [scene_name 0] [] [] =
    ([EvHead ("http://grq" +:+ "/" +:+ scene_name 0)], OK ([], [])).
Proof.
  refine (proj2 (C7_redirect_probe_is_not_an_error (λ _, Some 301) "http://grq"
                   (scene_name 0) [] [] [] 301 eq_refl _ _ _)); lia.
Defined.

(** C2 on scene 0, of Sentinel-1A, orbit 16073 and track 76. *)
Lemma C2_witness :
  massage_result any_wkt repr_none (scene 0) = OK (scene_fields 0) ↔
  track_formula (scene_fields 0) 73.
Proof.
  assert (Hfields : massage_fields any_wkt repr_none (scene 0) = OK (scene_fields 0))
    by reflexivity.
  assert (Hplatform : scene_fields 0 !! "platform" = Some (VStr "Sentinel-1A"))
    by reflexivity.
  exact (proj1 (proj1 (C2_track_orbit_consistency any_wkt repr_none (scene 0)
                         (scene_fields 0) Hfields) Hplatform)).
Defined.



(** C4 on the three kinds of text, and on the direction of scene 0. *)
Lemma C4_witness :
  (∀ res, set_str_field res (fld "orbitdirection" "ASCENDING")
          = OK (<["direction" := VStr "asc"]> res)) ∧
  (∀ res, set_str_field res (fld "orbitdirection" "DESCENDING")
          = OK (<["direction" := VStr "dsc"]> res)) ∧
  (∀ res, set_str_field res (fld "orbitdirection" "UNKNOWN")
          = Raise (RuntimeError ("Failed to recognize orbit direction: " +:+ "UNKNOWN"))) ∧
  scene_met 0 !! "direction" = Some (VStr "asc").
Proof.
  assert (Hname : ∀ c, fld "orbitdirection" c !! "name" = Some "orbitdirection")
    by (intros c; reflexivity).
  assert (Hcontent : ∀ c, fld "orbitdirection" c !! "content" = Some c).
  { intros c. unfold fld. rewrite lookup_insert_ne by discriminate. apply lookup_insert_eq. }
  assert (H1 : "UNKNOWN" ≠ "DESCENDING") by discriminate.
  assert (H2 : "UNKNOWN" ≠ "ASCENDING") by discriminate.
  assert (Hpre : fields_before_str (scene 0) = OK (scene_before_str 0)) by reflexivity.
  assert (Hstr : scene_before_str 0 !! "str" =
            Some (VItems ([] ++ fld "orbitdirection" "ASCENDING" ::
                          [fld "footprint" "POLYGON ((0 0, 1 0, 1 1, 0 0))";
                           fld "platformname" "Sentinel-1"]))) by reflexivity.
  assert (Hlater : Forall (λ j : item, j !! "name" ≠ Some "direction" ∧
                                       j !! "name" ≠ Some "orbitdirection")
                     [fld "footprint" "POLYGON ((0 0, 1 0, 1 1, 0 0))";
                      fld "platformname" "Sentinel-1"])
    by (repeat constructor; intros H; vm_compute in H; discriminate H).
  assert (Hpd : fields_before_dates (scene 0) = OK (scene_before_dates 0)) by reflexivity.
  assert (Hdate : scene_before_dates 0 !! "date" =
            Some (VItems [fld "ingestiondate" "2017-04-09T12:00:00.000Z";
                          fld "beginposition" "2017-04-09T01:02:03.456Z";
                          fld "endposition" "2017-04-09T01:02:30.456Z"])) by reflexivity.
  assert (Hdates : Forall (λ j : item, j !! "name" ≠ Some "direction")
                     [fld "ingestiondate" "2017-04-09T12:00:00.000Z";
                      fld "beginposition" "2017-04-09T01:02:03.456Z";
                      fld "endposition" "2017-04-09T01:02:30.456Z"])
    by (repeat constructor; intros H; vm_compute in H; discriminate H).
  assert (Hok : massage_result any_wkt repr_none (scene 0) = OK (scene_met 0)) by reflexivity.
  split; [|split; [|split]].
  - exact (proj1 (proj2 (C4_orbit_direction any_wkt repr_none _ "ASCENDING"
                           (Hname _) (Hcontent _))) eq_refl).
  - exact (proj1 (C4_orbit_direction any_wkt repr_none _ "DESCENDING"
                    (Hname _) (Hcontent _)) eq_refl).
  - exact (proj1 (proj1 (proj2 (proj2 (C4_orbit_direction any_wkt repr_none _ "UNKNOWN"
                                         (Hname _) (Hcontent _)))) H1 H2)).
  - destruct (proj2 (proj2 (proj2 (C4_orbit_direction any_wkt repr_none
                (fld "orbitdirection" "ASCENDING") "ASCENDING" (Hname _) (Hcontent _))))
              (scene 0) (scene_before_str 0) (scene_before_dates 0) (scene_met 0) [] _ _
              Hpre Hstr Hlater Hpd Hdate Hdates Hok) as [[Hc _]|[_ Hd]].
    + discriminate Hc.
    + exact Hd.
Defined.


(** *** The scenes of the sample catalogue *)

Lemma scene_normalised (n : nat) :
  massage_result any_wkt repr_none (scene n) = OK (scene_met n).
Proof. unfold scene_met, scene. generalize (pretty n). intros t. reflexivity. Qed.

Lemma scene_met_name (n : nat) :
  scene_met n !! "data_product_name" = Some (VStr (scene_name n)).
Proof. unfold scene_met, scene, scene_name. generalize (pretty n). intros t. reflexivity. Qed.

Lemma scene_met_track (n : nat) : scene_met n !! "trackNumber" = Some (VInt 76).
Proof. unfold scene_met, scene. generalize (pretty n). intros t. reflexivity. Qed.

Lemma scene_met_ds (n : nat) : get_dataset_json (scene_met n) "v1.1" = OK (scene_ds n).
Proof.
  unfold scene_met, scene, scene_ds, scene_name. generalize (pretty n). intros t.
  reflexivity.
Qed.

Lemma scene_filed (n : nat) (a : accumulator) :
  process_entry any_wkt repr_none "v1.1" a (scene n) = OK (file_scene a n).
Proof.
  unfold process_entry. rewrite scene_normalised. cbn [mbind result_bind].
  unfold accumulate, getitem. rewrite scene_met_ds, scene_met_name, scene_met_track.
  reflexivity.
Qed.

Lemma scenes_all_filed (l : list nat) (a : accumulator) :
  for_each (process_entry any_wkt repr_none "v1.1") (scene <$> l) a = OK (scenes_filed l a).
Proof.
  revert a. induction l as [|n l IH]; intros a; [reflexivity|].
  rewrite fmap_cons. cbn [for_each]. rewrite scene_filed. cbn [mbind result_bind].
  apply IH.
Qed.

(** C5 on pages of 100, 100, 37 and 0 scenes: one request, then the
    TypeError. *)
Lemma C5_witness :
  query_loop any_wkt repr_none sample_query "v1.1" (full_pages ++ [empty_page]) initial_state
    = ([EvGet sample_query 0 100], Raise TypeError).
Proof.
  refine (C5_loop_raises_on_first_parsed_page any_wkt repr_none sample_query "v1.1" 200
            {| opensearch_totalResults := Some "237";
               entry := Some (Many (scene <$> seq 0 100)) |}
            [scene_page "237" 100 100; scene_page "237" 200 37; empty_page]
            initial_state _).
  lia.
Defined.

(** C6 on scene 0 as the lone entry of a page. *)
Lemma C6_witness :
  process_page any_wkt repr_none "v1.1" (Lone (scene 0)) 1 initial_state =
    ([EvWrite "res.json" (JEntries (Lone (scene 0))); EvSleep 3],
     OK (true, {| offset := offset initial_state + 1; total_results_expected := Some 1;
                  acc := file_scene (acc initial_state) 0 |})).
Proof.
  assert (Hacc : accumulate "v1.1" (acc initial_state) (scene_met 0)
                 = OK (file_scene (acc initial_state) 0)).
  { pose proof (scene_filed 0 (acc initial_state)) as H. unfold process_entry in H.
    rewrite scene_normalised in H. exact H. }
  exact (proj1 (proj1 (proj2 (C6_lone_entry_is_one_element_list any_wkt repr_none
                                sample_query "v1.1" (scene 0) 1 initial_state))
                  (scene_met 0) _ (scene_normalised 0) Hacc)).
Defined.

(** C8 on scene 0 filed twice: one record, its name twice in the bucket. *)
Lemma C8_witness :
  default [] (ids_by_track (filed_entries [scene 0; scene 0]) !! inl 76)
    = [scene_name 0; scene_name 0] ∧
  size (prods_all (filed_entries [scene 0; scene 0])) = 1%nat ∧
  prods_all (filed_entries [scene 0; scene 0]) !! scene_name 0
    = Some (scene_met 0, scene_ds 0).
Proof.
  assert (Hrun : for_each (process_entry any_wkt repr_none "v1.1") [scene 0; scene 0]
                   (acc initial_state) = OK (filed_entries [scene 0; scene 0]))
    by reflexivity.
  assert (Hmet : massage_result any_wkt repr_none (scene 0) = OK (scene_met 0))
    by reflexivity.
  destruct (C8_last_write_wins_buckets_append any_wkt repr_none "v1.1" [scene 0; scene 0]
              (acc initial_state) (filed_entries [scene 0; scene 0]) Hrun)
    as (ms & Hms & Hlast & _ & Hbucket & _).
  assert (Hms' : ms = [scene_met 0; scene_met 0]).
  { inversion Hms as [|? m1 ? ms1 H1 Hms1]; subst.
    inversion Hms1 as [|? m2 ? ms2 H2 Hms2]; subst. inversion Hms2; subst.
    rewrite Hmet in H1, H2. congruence. }
  subst ms. split; [|split].
  - rewrite (Hbucket (inl 76)). reflexivity.
  - vm_compute. reflexivity.
  - destruct (Hlast (scene_name 0) (scene_met 0) eq_refl) as (ds & Hds & Hp).
    rewrite Hp. f_equal. f_equal.
    assert (Hds' : get_dataset_json (scene_met 0) "v1.1" = OK (scene_ds 0)) by reflexivity.
    congruence.
Defined.


(** C10 on the record of scene 0. *)
Lemma C10_witness :
  let out := create_acq_dataset abspath_cwd no_dir (scene_ds 0) (scene_met 0) "." false in
  met_after out = <["query_api" := VStr "odata"]> (scene_met 0) ∧
  met_after out !! "platform" = scene_met 0 !! "platform" ∧
  acq_returned out = OK (scene_name 0, os_path_join (abspath_cwd ".") (scene_name 0)).
Proof.
  assert (Hid : scene_met 0 !! "data_product_name" = Some (VStr (scene_name 0)))
    by reflexivity.
  pose proof (C10_create_acq_dataset_adds_query_api abspath_cwd no_dir (scene_ds 0)
                (scene_met 0) "." (scene_name 0) false Hid)
    as (Hmet & _ & Hframe & _ & _ & _ & Hret).
  intros out. split; [exact Hmet|]. split.
  - apply Hframe. discriminate.
  - apply Hret. left. reflexivity.
Defined.

(** * Further properties *)

(** ** The platform expression *)

Lemma rev_app_app (a b t : string) :
  String.rev_app a b +:+ t = String.rev_app a (b +:+ t).
Proof. revert b. induction a as [|c a IH]; intros b; simpl; [reflexivity|]. apply IH. Qed.

Lemma lazy_until_underscore_sound (s acc g : string) :
  lazy_until_underscore s acc = Some g ->
  ∃ mid post, s = mid +:+ String "_" post ∧ g = String.rev_app acc mid ∧
              lacks "_" mid = true ∧ lacks "010" mid = true.
Proof.
  revert acc. induction s as [|c s IH]; intros acc H; simpl in H; [discriminate|].
  destruct (Ascii.eqb c "_") eqn:Hu.
  - apply Ascii.eqb_eq in Hu as ->. injection H as <-.
    exists "", s. repeat split.
  - destruct (is_newline c) eqn:Hn; [discriminate|].
    destruct (IH _ H) as (mid & post & -> & -> & Hm1 & Hm2).
    exists (String c mid), post. repeat split.
    + simpl. rewrite Hu. exact Hm1.
    + simpl. unfold is_newline in Hn.
      assert (Ascii.eqb c "010" = false) as ->; [|exact Hm2].
      apply Ascii.eqb_neq. intros ->. discriminate Hn.
Qed.

Lemma lazy_until_underscore_complete (mid post acc : string) :
  lacks "_" mid = true -> lacks "010" mid = true ->
  lazy_until_underscore (mid +:+ String "_" post) acc = Some (String.rev_app acc mid).
Proof.
  revert acc. induction mid as [|c mid IH]; intros acc H1 H2; simpl; [reflexivity|].
  simpl in H1, H2. apply andb_true_iff in H1 as [Hc1 H1], H2 as [Hc2 H2].
  apply negb_true_iff in Hc1, Hc2. rewrite Hc1.
  assert (is_newline c = false) as ->.
  { unfold is_newline. apply Nat.eqb_neq. intros Hn.
    apply Ascii.eqb_neq in Hc2. apply Hc2.
    rewrite <- (ascii_nat_embedding c), Hn. reflexivity. }
  apply IH; assumption.
Qed.

(** X4. What [PLATFORM_RE.search] returns is a token found in the title
    between the characters S1 and an underscore: it is not empty, holds no
    line feed, and holds no underscore after its first character (the lazy
    match stops at the first one). A title that begins with S1, a token
    free of underscores and line feeds, and an underscore gives that token. *)
Theorem X4_platform_token (t g : string) (Hfound : platform_re_search t = Some g) :
  (∃ pre post c mid,
     t = pre +:+ "S1" +:+ g +:+ String "_" post ∧ g = String c mid ∧
     lacks "010" g = true ∧ lacks "_" mid = true) ∧
  (∀ x post, x ≠ "" -> lacks "_" x = true -> lacks "010" x = true ->
     platform_re_search ("S1" +:+ x +:+ String "_" post) = Some x).
Proof.
  split.
  - revert Hfound. induction t as [|c t IH]; intros H; [discriminate|].
    cbn [platform_re_search] in H.
    destruct (match String c t with
              | String "S" (String "1" rest) => match_group rest
              | _ => None
              end) as [g'|] eqn:Hhere.
    + injection H as ->.
      assert (∃ rest, String c t = String "S" (String "1" rest) ∧ match_group rest = Some g)
        as (rest & Ht & Hm).
      { destruct c as [[] [] [] [] [] [] [] []]; try discriminate Hhere.
        destruct t as [|c' t']; [discriminate|].
        destruct c' as [[] [] [] [] [] [] [] []]; try discriminate Hhere. eauto. }
      rewrite Ht. unfold match_group in Hm. destruct rest as [|c0 rest]; [discriminate|].
      destruct (is_newline c0) eqn:Hn; [discriminate|].
      apply lazy_until_underscore_sound in Hm as (mid & post & -> & -> & H1 & H2).
      exists "", post, c0, mid. simpl. repeat split; try assumption.
      assert (Ascii.eqb c0 "010" = false) as ->; [|exact H2].
      apply Ascii.eqb_neq. intros ->. discriminate Hn.
    + destruct (IH H) as (pre & post & c0 & mid & -> & -> & H1 & H2).
      exists (String c pre), post, c0, mid. repeat split; assumption.
  - intros x post Hx H1 H2. destruct x as [|c x]; [contradiction|].
    simpl in H1, H2. apply andb_true_iff in H1 as [Hc1 H1], H2 as [Hc2 H2].
    apply negb_true_iff in Hc2.
    change ("S1" +:+ String c x +:+ String "_" post)
      with (String "S" (String "1" (String c (x +:+ String "_" post)))).
    cbn [platform_re_search match_group].
    assert (is_newline c = false) as ->.
    { unfold is_newline. apply Nat.eqb_neq. intros Hn.
      apply Ascii.eqb_neq in Hc2. apply Hc2.
      rewrite <- (ascii_nat_embedding c), Hn. reflexivity. }
    rewrite (lazy_until_underscore_complete x post (String c "") H1 H2). reflexivity.
Qed.

(** ** The normaliser, further *)

Section NormalizerMore.

Variable wkt_ok : string -> bool.
Variable py_repr : value -> string.

Lemma set_int_field_frame (res r : record) (i : item) (k : string) :
  set_int_field res i = OK r ->
  i !! "name" ≠ Some k -> k ≠ "orbitNumber" -> k ≠ "trackNumber" ->
  r !! k = res !! k.
Proof.
  clear wkt_ok py_repr.
  unfold set_int_field. intros H Hk Ho Ht.
  apply bind_OK in H as (name & Hn & H). apply getitem_OK in Hn.
  repeat case_decide; subst;
    apply bind_OK in H as (c & Hc & H); apply bind_OK in H as (n & Hi & H);
    injection H as <-; apply lookup_insert_ne; congruence.
Qed.

Lemma int_loop_frame (l : list item) (res r : record) (k : string) :
  for_each set_int_field l res = OK r ->
  Forall (λ i, i !! "name" ≠ Some k) l -> k ≠ "orbitNumber" -> k ≠ "trackNumber" ->
  r !! k = res !! k.
Proof.
  clear wkt_ok py_repr.
  revert res. induction l as [|i l IH]; intros res H Hall Ho Ht; simpl in H.
  - congruence.
  - apply bind_OK in H as (r1 & H1 & H). inversion Hall as [|? ? Hi Hall']; subst.
    rewrite (IH _ H Hall' Ho Ht). eapply set_int_field_frame; eauto.
Qed.

Lemma set_link_frame (res r : record) (i : item) (k : string) :
  set_link res i = OK r -> i !! "rel" ≠ Some k -> k ≠ "download_url" -> r !! k = res !! k.
Proof.
  clear wkt_ok py_repr.
  unfold set_link. intros H Hk Hd. destruct (i !! "rel") as [rel|];
    apply bind_OK in H as (href & _ & H); injection H as <-;
    apply lookup_insert_ne; congruence.
Qed.

Lemma link_loop_frame (l : list item) (res r : record) (k : string) :
  for_each set_link l res = OK r ->
  Forall (λ i, i !! "rel" ≠ Some k) l -> k ≠ "download_url" -> r !! k = res !! k.
Proof.
  clear wkt_ok py_repr.
  revert res. induction l as [|i l IH]; intros res H Hall Hd; simpl in H.
  - congruence.
  - apply bind_OK in H as (r1 & H1 & H). inversion Hall as [|? ? Hi Hall']; subst.
    rewrite (IH _ H Hall' Hd). eapply set_link_frame; eauto.
Qed.

(** X1. The integer group is read first: an entry without the key int
    raises the KeyError of that key, a group that is not a list of items
    (and not the empty text) raises a TypeError, and an integer field whose
    content is not an integer literal makes the normalisation fail. *)
Theorem X1_integer_group_errors (e : record) :
  (e !! "int" = None -> massage_result wkt_ok py_repr e = Raise (KeyError "int")) ∧
  (∀ v, e !! "int" = Some v -> iter_items v = Raise TypeError ->
        massage_result wkt_ok py_repr e = Raise TypeError) ∧
  (∀ l i c, e !! "int" = Some (VItems l) -> i ∈ l ->
        i !! "name" ≠ None -> i !! "content" = Some c -> py_int c = Raise ValueError ->
        ∃ err, massage_result wkt_ok py_repr e = Raise err) ∧
  (∀ l1 i l2, e !! "int" = Some (VItems (l1 ++ i :: l2)) ->
        (∃ r1, for_each set_int_field l1 e = OK r1) ->
        i !! "name" = None ->
        massage_result wkt_ok py_repr e = Raise (KeyError "name")).
Proof.
  unfold massage_result, massage_fields, fields_before_dates, fields_before_str,
    set_int_fields, getitem.
  split; [|split; [|split]].
  - intros ->. reflexivity.
  - intros v -> Hv. cbn [mbind result_bind]. rewrite Hv. reflexivity.
  - intros l i c -> Hin Hname Hc Hbad. cbn [mbind result_bind iter_items].
    destruct (for_each_fails set_int_field l i e Hin) as [err Herr].
    + intros res. unfold set_int_field, getitem.
      destruct (i !! "name") as [name|]; [|contradiction].
      rewrite Hc. cbn [mbind result_bind]. rewrite Hbad.
      repeat case_decide; cbn [mbind result_bind]; eauto.
    + rewrite Herr. eauto.
  - intros l1 i l2 -> [r1 Hr1] Hname. cbn [mbind result_bind iter_items].
    assert (Hi : set_int_field r1 i = Raise (KeyError "name")).
    { unfold set_int_field, getitem. rewrite Hname. reflexivity. }
    rewrite for_each_app, Hr1. cbn [mbind result_bind for_each]. rewrite Hi. reflexivity.
Qed.

(** What the last steps of the normaliser leave in the record. *)
Lemma derived_fields (e r : record)
    (Hok : massage_result wkt_ok py_repr e = OK r) :
  ∃ t w g,
    r !! "title" = Some (VStr t) ∧
    r !! "data_product_name" = Some (VStr ("acquisition-" +:+ t)) ∧
    r !! "archive_filename" = Some (VStr (t +:+ ".zip")) ∧
    r !! "footprint" = Some (VStr w) ∧ wkt_ok w = true ∧
    r !! "location" = Some (VLocation w) ∧
    r !! "bbox" = Some (VBbox w) ∧
    platform_re_search t = Some g ∧
    r !! "platform" = Some (VStr ("Sentinel-1" +:+ g)).
Proof.
  unfold massage_result in Hok. apply bind_OK in Hok as (rf & Hf & Hv).
  apply verify_track_same in Hv. subst rf.
  unfold massage_fields in Hf.
  apply bind_OK in Hf as (rd & _ & Hf). apply bind_OK in Hf as (r2 & _ & Hf).
  apply bind_OK in Hf as (rn & Hn & Hf). apply bind_OK in Hf as (rg & Hg & Hplat).
  pose proof (set_platform_sets _ _ Hplat) as (t & g & Ht & Hsearch & ->).
  unfold set_footprint in Hg. apply bind_OK in Hg as (fp & Hfp & Hg).
  apply getitem_OK in Hfp. destruct fp as [|w| | |]; try discriminate.
  destruct (wkt_ok w) eqn:Hw; [|discriminate]. injection Hg as <-.
  rewrite !lookup_insert_ne in Ht by discriminate.
  unfold set_names in Hn. apply bind_OK in Hn as (v & Hv & Hn).
  apply bind_OK in Hn as (v' & Hv' & Hn). injection Hn as <-.
  apply getitem_OK in Hv, Hv'.
  rewrite !lookup_insert_ne in Ht, Hfp by discriminate.
  rewrite lookup_insert_ne in Hv' by discriminate.
  assert (v = VStr t) as -> by congruence. assert (v' = VStr t) as -> by congruence.
  exists t, w, g.
  repeat split; try assumption;
    repeat first [ rewrite lookup_insert_eq; reflexivity
                 | rewrite lookup_insert_ne by discriminate ];
    assumption.
Qed.

(** X3. The derived fields of a normalised record: its title is a text;
    data_product_name is "acquisition-" followed by the title and
    archive_filename the title followed by ".zip"; its footprint is a text
    that reads as a geometry, of which location and bbox are made; its
    platform is "Sentinel-1" followed by the token found in the title. *)
Theorem X3_derived_fields (e r : record)
    (Hok : massage_result wkt_ok py_repr e = OK r) :
  ∃ t w g,
    r !! "title" = Some (VStr t) ∧
    r !! "data_product_name" = Some (VStr ("acquisition-" +:+ t)) ∧
    r !! "archive_filename" = Some (VStr (t +:+ ".zip")) ∧
    r !! "footprint" = Some (VStr w) ∧ wkt_ok w = true ∧
    r !! "location" = Some (VLocation w) ∧
    r !! "bbox" = Some (VBbox w) ∧
    platform_re_search t = Some g ∧
    r !! "platform" = Some (VStr ("Sentinel-1" +:+ g)).
Proof. exact (derived_fields e r Hok). Qed.

(** X5. The dataset descriptor of a normalised record: it is made exactly
    when the record has both sensing times, which the normaliser does not
    ensure; without sensingStart the KeyError names sensingStart, and with
    it but without sensingStop it names sensingStop. The descriptor holds
    the version given and the four fields of the record. *)
Theorem X5_dataset_of_normalised (e r : record) (version : string)
    (Hok : massage_result wkt_ok py_repr e = OK r) :
  (r !! "sensingStart" = None ->
     get_dataset_json r version = Raise (KeyError "sensingStart")) ∧
  (is_Some (r !! "sensingStart") -> r !! "sensingStop" = None ->
     get_dataset_json r version = Raise (KeyError "sensingStop")) ∧
  (∀ b s, r !! "sensingStart" = Some b -> r !! "sensingStop" = Some s ->
     ∃ t w, r !! "title" = Some (VStr t) ∧ r !! "footprint" = Some (VStr w) ∧
       get_dataset_json r version =
         OK {| ds_version := version; ds_label := VStr ("acquisition-" +:+ t);
               ds_location := VLocation w; ds_starttime := b; ds_endtime := s |}).
Proof.
  destruct (derived_fields e r Hok) as (t & w & g & Ht & Hn & _ & Hw & _ & Hl & _).
  unfold get_dataset_json, getitem. rewrite Hn, Hl. cbn [mbind result_bind].
  split; [|split].
  - intros ->. reflexivity.
  - intros [b ->] ->. reflexivity.
  - intros b s -> ->. exists t, w. auto.
Qed.

(** *** The group keys *)

Lemma plain_item_keys (i : item) (k : string) :
  names_no_group i -> k ∈ group_keys -> i !! "name" ≠ Some k ∧ i !! "rel" ≠ Some k.
Proof.
  clear wkt_ok py_repr.
  intros [Hn Hr] Hk. split; intros H; [exact (Hn k H Hk) | exact (Hr k H Hk)].
Qed.

Lemma group_key_cases (k : string) :
  k ∈ group_keys -> k = "int" ∨ k = "link" ∨ k = "str" ∨ k = "date".
Proof.
  clear wkt_ok py_repr.
  unfold group_keys. rewrite !elem_of_cons. pose proof (not_elem_of_nil k). tauto.
Qed.

Lemma int_stage_keys (e r : record) (l : list item) (k : string) :
  e !! "int" = Some (VItems l) -> set_int_fields e = OK r ->
  Forall names_no_group l -> k ∈ group_keys ->
  r !! k = if decide (k = "int") then None else e !! k.
Proof.
  clear wkt_ok py_repr.
  intros Hg H Hall Hk. unfold set_int_fields, getitem in H. rewrite Hg in H.
  cbn [mbind result_bind iter_items] in H. apply bind_OK in H as (r' & Hl & H).
  injection H as <-. case_decide as Hki; [subst; apply lookup_delete_eq|].
  rewrite lookup_delete_ne by congruence. apply (int_loop_frame l _ _ _ Hl).
  - eapply Forall_impl; [exact Hall|]. intros i Hi. apply (plain_item_keys i k Hi Hk).
  - apply group_key_cases in Hk. intros ->. intuition discriminate.
  - apply group_key_cases in Hk. intros ->. intuition discriminate.
Qed.

Lemma link_stage_keys (e r : record) (l : list item) (k : string) :
  e !! "link" = Some (VItems l) -> set_links e = OK r ->
  Forall names_no_group l -> k ∈ group_keys ->
  r !! k = if decide (k = "link") then None else e !! k.
Proof.
  clear wkt_ok py_repr.
  intros Hg H Hall Hk. unfold set_links, getitem in H. rewrite Hg in H.
  cbn [mbind result_bind iter_items] in H. apply bind_OK in H as (r' & Hl & H).
  injection H as <-. case_decide as Hki; [subst; apply lookup_delete_eq|].
  rewrite lookup_delete_ne by congruence. apply (link_loop_frame l _ _ _ Hl).
  - eapply Forall_impl; [exact Hall|]. intros i Hi. apply (plain_item_keys i k Hi Hk).
  - apply group_key_cases in Hk. intros ->. intuition discriminate.
Qed.

Lemma str_stage_keys (e r : record) (l : list item) (k : string) :
  e !! "str" = Some (VItems l) -> set_str_fields e = OK r ->
  Forall names_no_group l -> k ∈ group_keys ->
  r !! k = if decide (k = "str") then None else e !! k.
Proof.
  clear wkt_ok py_repr.
  intros Hg H Hall Hk. unfold set_str_fields, getitem in H. rewrite Hg in H.
  cbn [mbind result_bind iter_items] in H. apply bind_OK in H as (r' & Hl & H).
  injection H as <-. case_decide as Hki; [subst; apply lookup_delete_eq|].
  rewrite lookup_delete_ne by congruence. apply (str_loop_frame l _ _ _ Hl).
  eapply Forall_impl; [exact Hall|]. intros i Hi.
  split; [apply (plain_item_keys i k Hi Hk)|].
  apply group_key_cases in Hk. split; intros ->; intuition discriminate.
Qed.

Lemma date_stage_keys (e r : record) (l : list item) (k : string) :
  e !! "date" = Some (VItems l) -> set_date_fields e = OK r ->
  Forall names_no_group l -> k ∈ group_keys ->
  r !! k = if decide (k = "date") then None else e !! k.
Proof.
  clear wkt_ok py_repr.
  intros Hg H Hall Hk. unfold set_date_fields, getitem in H. rewrite Hg in H.
  cbn [mbind result_bind iter_items] in H. apply bind_OK in H as (r' & Hl & H).
  injection H as <-. case_decide as Hki; [subst; apply lookup_delete_eq|].
  rewrite lookup_delete_ne by congruence. apply (date_loop_frame l _ _ _ Hl).
  eapply Forall_impl; [exact Hall|]. intros i Hi.
  split; [apply (plain_item_keys i k Hi Hk)|].
  apply group_key_cases in Hk. split; intros ->; intuition discriminate.
Qed.

Lemma derived_stage_keys (rd r : record) (k : string) :
  (rn ← set_names py_repr rd; rg ← set_footprint wkt_ok rn; set_platform rg) = OK r ->
  k ∈ group_keys -> r !! k = rd !! k.
Proof.
  intros H Hk. apply bind_OK in H as (rn & Hn & H). apply bind_OK in H as (rg & Hg & Hp).
  apply group_key_cases in Hk.
  rewrite (set_platform_frame _ _ k Hp) by (intros ->; intuition discriminate).
  rewrite (set_footprint_frame wkt_ok _ _ k Hg) by (intros ->; intuition discriminate).
  apply (set_names_frame py_repr _ _ k Hn); intros ->; intuition discriminate.
Qed.

(** X2. The groups are consumed. A normalised record never has the key
    date; and when the four groups of the entry are lists of items none of
    which is named after a group, the record has none of the keys int,
    link, str and date. *)
Theorem X2_groups_consumed (e r : record)
    (Hok : massage_result wkt_ok py_repr e = OK r) :
  r !! "date" = None ∧
  (plain_groups e -> ∀ k, k ∈ group_keys -> r !! k = None).
Proof.
  unfold massage_result in Hok. apply bind_OK in Hok as (rf & Hf & Hv).
  apply verify_track_same in Hv. subst rf.
  unfold massage_fields in Hf. apply bind_OK in Hf as (rs & Hbd & Hf).
  apply bind_OK in Hf as (rd & Hd & Hder).
  split.
  - rewrite (derived_stage_keys rd r "date" Hder) by (unfold group_keys; repeat constructor).
    unfold set_date_fields in Hd. apply bind_OK in Hd as (g & _ & Hd).
    apply bind_OK in Hd as (l & _ & Hd). apply bind_OK in Hd as (r' & _ & Hd).
    injection Hd as <-. apply lookup_delete_eq.
  - intros (li & ll & ls & ld & Hi & Hl & Hs & Hdt & Hall) k Hk.
    apply Forall_app in Hall as [Ali Hall]. apply Forall_app in Hall as [All Hall].
    apply Forall_app in Hall as [Als Ald].
    unfold fields_before_dates in Hbd. apply bind_OK in Hbd as (rl & Hbs & Hstr).
    unfold fields_before_str in Hbs. apply bind_OK in Hbs as (ri & Hint & Hlink).
    assert (Ki : ∀ k, k ∈ group_keys ->
              ri !! k = if decide (k = "int") then None else e !! k)
      by (intros k'; apply (int_stage_keys e ri li k' Hi Hint Ali)).
    assert (Hl' : ri !! "link" = Some (VItems ll)).
    { rewrite Ki by (unfold group_keys; repeat constructor). exact Hl. }
    assert (Kl : ∀ k, k ∈ group_keys ->
              rl !! k = if decide (k = "link") then None else ri !! k)
      by (intros k'; apply (link_stage_keys ri rl ll k' Hl' Hlink All)).
    assert (Hs' : rl !! "str" = Some (VItems ls)).
    { rewrite Kl, Ki by (unfold group_keys; repeat constructor). exact Hs. }
    assert (Ks : ∀ k, k ∈ group_keys ->
              rs !! k = if decide (k = "str") then None else rl !! k)
      by (intros k'; apply (str_stage_keys rl rs ls k' Hs' Hstr Als)).
    assert (Hd' : rs !! "date" = Some (VItems ld)).
    { rewrite Ks, Kl, Ki by (unfold group_keys; repeat constructor). exact Hdt. }
    rewrite (derived_stage_keys rd r k Hder Hk).
    rewrite (date_stage_keys rs rd ld k Hd' Hd Ald Hk).
    rewrite (Ks k Hk), (Kl k Hk), (Ki k Hk).
    apply group_key_cases in Hk as [-> | [-> | [-> | ->]]]; reflexivity.
Qed.

End NormalizerMore.

(** ** Datasets, further *)

Section DatasetMore.

Variable abspath : string -> string.
Variable isdir : string -> bool.
Variable mkdtemp : nat -> string.

(** X6. How [create_acq_dataset] fails. Without data_product_name it
    raises the KeyError of that key before anything is done: the record is
    unchanged and nothing is written. With browse asked for and no icon in
    the record it raises the KeyError of icon only after the record has
    been given query_api and both files have been written. *)
Theorem X6_create_failures (ds : dataset) (met : record) (root : string) :
  (met !! "data_product_name" = None ->
     ∀ b, create_acq_dataset abspath isdir ds met root b =
          {| met_after := met; acq_events := [];
             acq_returned := Raise (KeyError "data_product_name") |}) ∧
  (∀ id, met !! "data_product_name" = Some (VStr id) -> met !! "icon" = None ->
     let out := create_acq_dataset abspath isdir ds met root true in
     let ds_dir := os_path_join (abspath root) id in
     acq_returned out = Raise (KeyError "icon") ∧
     met_after out = <["query_api" := VStr "odata"]> met ∧
     acq_events out =
       (if isdir ds_dir then [] else [EvMakedirs ds_dir]) ++
       [EvWrite (os_path_join ds_dir (id +:+ ".dataset.json")) (JDataset ds);
        EvWrite (os_path_join ds_dir (id +:+ ".met.json"))
                (JMet (<["query_api" := VStr "odata"]> met))]).
Proof.
  clear mkdtemp. split.
  - intros Hn b. unfold create_acq_dataset, getitem. rewrite Hn. reflexivity.
  - intros id Hn Hi. unfold create_acq_dataset, getitem. rewrite Hn.
    rewrite lookup_insert_ne by discriminate. rewrite Hi. auto.
Qed.

Lemma isdir_after_made (p : string) (evs : list event) :
  isdir_after isdir (EvMakedirs p :: evs) p = true.
Proof.
  clear abspath mkdtemp.
  unfold isdir_after. apply orb_true_iff. right.
  apply bool_decide_eq_true_2. constructor. cbn. apply String.eqb_refl.
Qed.

Lemma isdir_after_kept (p : string) (evs : list event) :
  isdir p = true -> isdir_after isdir evs p = true.
Proof. clear abspath mkdtemp. unfold isdir_after. intros ->. reflexivity. Qed.

(** X7. Creating the dataset again, from the record as the first call left
    it and with the directories that the first call made in place, gives
    the same record and the same result; its events are those of the first
    call without the making of the directory, which is now found. *)
Theorem X7_create_again (ds : dataset) (met : record) (root : string) (b : bool) :
  let first := create_acq_dataset abspath isdir ds met root b in
  let again := create_acq_dataset abspath (isdir_after isdir (acq_events first)) ds
                 (met_after first) root b in
  met_after again = met_after first ∧
  acq_returned again = acq_returned first ∧
  acq_events again = filter (λ ev, is_makedirs ev = false) (acq_events first) ∧
  Forall (λ ev, is_makedirs ev = false) (acq_events again).
Proof.
  clear mkdtemp. intros first again.
  assert (Hev : acq_events again = filter (λ ev, is_makedirs ev = false) (acq_events first)
                ∧ met_after again = met_after first
                ∧ acq_returned again = acq_returned first).
  { subst again first. unfold create_acq_dataset, getitem.
    destruct (met !! "data_product_name") as [[n|id|l|w|w]|] eqn:Hn; cbn [met_after];
      rewrite ?Hn; try (split; [reflexivity | split; reflexivity]).
    assert (Hq : <["query_api" := VStr "odata"]> (<["query_api" := VStr "odata"]> met)
                 = <["query_api" := VStr "odata"]> met :> record) by apply insert_insert_eq.
    set (ds_dir := os_path_join (abspath root) id).
    destruct b.
    - destruct ((<["query_api" := VStr "odata"]> met : record) !! "icon") as [icon|] eqn:Hi;
        cbn [met_after acq_events acq_returned];
        rewrite lookup_insert_ne by discriminate; rewrite Hn;
        rewrite Hq, Hi; cbn [met_after acq_events acq_returned];
        (destruct (isdir ds_dir) eqn:Hd;
         [ rewrite (isdir_after_kept ds_dir _ Hd) | cbn [app]; rewrite isdir_after_made ];
         (split; [reflexivity | split; reflexivity])).
    - cbn [met_after acq_events acq_returned].
      rewrite lookup_insert_ne by discriminate. rewrite Hn, Hq.
      cbn [met_after acq_events acq_returned].
      destruct (isdir ds_dir) eqn:Hd;
        [ rewrite (isdir_after_kept ds_dir _ Hd) | cbn [app]; rewrite isdir_after_made ];
        (split; [reflexivity | split; reflexivity]). }
  destruct Hev as (Hev & Hm & Hr).
  split; [exact Hm|]. split; [exact Hr|]. split; [exact Hev|].
  rewrite Hev. apply Forall_forall. intros ev Hin.
  apply list_elem_of_filter in Hin as [Hin _]. exact Hin.
Qed.

Lemma create_events_kinds (ds : dataset) (met : record) (root : string) (b : bool) :
  Forall (λ ev, (∀ p, ev ≠ EvRmtree p) ∧ (∀ i c d, ev ≠ EvIngest i c d))
         (acq_events (create_acq_dataset abspath isdir ds met root b)).
Proof.
  clear mkdtemp. unfold create_acq_dataset.
  destruct (getitem met "data_product_name") as [[]|]; simpl; try constructor.
  destruct (isdir _), b; simpl; try destruct (getitem _ "icon"); simpl;
    repeat constructor; discriminate.
Qed.

(** X8. [ingest_acq_dataset] makes the temporary directory first and
    leaves the record as [create_acq_dataset] leaves it. When the creation
    returns, the dataset is handed to the ingest and the temporary
    directory is removed last; when the creation raises, the exception is
    passed on, nothing is ingested and the temporary directory is not
    removed. *)
Theorem X8_ingest_steps (ds : dataset) (met : record) (cfg : string) (b : bool) (n : nat) :
  let out := ingest_acq_dataset abspath isdir mkdtemp ds met cfg b n in
  let made := create_acq_dataset abspath isdir ds met (mkdtemp n) b in
  met_after out = met_after made ∧
  acq_returned out = acq_returned made ∧
  (∀ id dir, acq_returned made = OK (id, dir) ->
     acq_events out = EvMkdtemp (mkdtemp n) :: acq_events made ++
                      [EvIngest id cfg dir; EvRmtree (mkdtemp n)]) ∧
  (∀ err, acq_returned made = Raise err ->
     acq_events out = EvMkdtemp (mkdtemp n) :: acq_events made ∧
     Forall (λ ev, (∀ p, ev ≠ EvRmtree p) ∧ (∀ i c d, ev ≠ EvIngest i c d))
            (acq_events out)).
Proof.
  intros out made. subst out made. unfold ingest_acq_dataset.
  pose proof (create_events_kinds ds met (mkdtemp n) b) as Hk.
  destruct (acq_returned (create_acq_dataset abspath isdir ds met (mkdtemp n) b))
    as [[id dir]|err]; cbn [met_after acq_returned acq_events].
  - split; [reflexivity|]. split; [reflexivity|]. split.
    + intros id' dir' [= <- <-]. reflexivity.
    + intros err [=].
  - split; [reflexivity|]. split; [reflexivity|]. split.
    + intros id dir [=].
    + intros err' _. split; [reflexivity|].
      constructor; [split; intros; discriminate | exact Hk].
Qed.

End DatasetMore.

(** ** The existence check, further *)

(** The status of the probe for a name counts as neither an answer nor an
    error: [raise_for_status] lets it through. *)
Lemma check_exists_result (rhead : string -> option Z) (url : string)
    (ids found missing found' missing' : list string) (tr : list event) :
  check_exists rhead url ids found missing = (tr, OK (found', missing')) ->
  found' = found ++ filter (λ id, rhead (url +:+ "/" +:+ id) = Some 200) ids ∧
  missing' = missing ++ filter (λ id, rhead (url +:+ "/" +:+ id) = Some 404) ids ∧
  tr = (λ id, EvHead (url +:+ "/" +:+ id)) <$> ids ∧
  Forall (λ id, ∃ status, rhead (url +:+ "/" +:+ id) = Some status ∧
                          (status = 200 ∨ status = 404 ∨ ¬ (400 <= status < 600))) ids.
Proof.
  revert found missing tr. induction ids as [|id ids IH]; intros found missing tr H.
  - simpl in H. injection H as <- <- <-. rewrite !app_nil_r. repeat split. constructor.
  - cbn [check_exists] in H. rewrite !filter_cons.
    destruct (rhead (url +:+ "/" +:+ id)) as [status|] eqn:Hp; [|discriminate].
    destruct (status =? 200)%Z eqn:E200.
    + apply Z.eqb_eq in E200 as ->.
      destruct (check_exists rhead url ids (found ++ [id]) missing) as [tr' res] eqn:Hc.
      injection H as <- ->. destruct (IH _ _ _ Hc) as (-> & -> & -> & Hall).
      rewrite decide_True by reflexivity. rewrite decide_False by discriminate.
      rewrite <- app_assoc. repeat split. constructor; [eauto|exact Hall].
    + destruct (status =? 404)%Z eqn:E404.
      * apply Z.eqb_eq in E404 as ->.
        destruct (check_exists rhead url ids found (missing ++ [id])) as [tr' res] eqn:Hc.
        injection H as <- ->. destruct (IH _ _ _ Hc) as (-> & -> & -> & Hall).
        rewrite decide_False by discriminate. rewrite decide_True by reflexivity.
        rewrite <- app_assoc. repeat split. constructor; [eauto|exact Hall].
      * apply Z.eqb_neq in E200, E404. unfold raise_for_status in H.
        destruct ((400 <=? status) && (status <? 600)) eqn:Hr; [discriminate|].
        cbn [mbind result_bind] in H.
        destruct (check_exists rhead url ids found missing) as [tr' res] eqn:Hc.
        injection H as <- ->. destruct (IH _ _ _ Hc) as (-> & -> & -> & Hall).
        rewrite !decide_False by congruence. repeat split.
        constructor; [|exact Hall]. exists status. split; [exact Hp|].
        right. right. apply andb_false_iff in Hr as [Hr|Hr]; lia.
Qed.

Lemma filter_two_length {A} (P Q : A -> Prop) `{∀ x, Decision (P x)} `{∀ x, Decision (Q x)}
    (l : list A) :
  (∀ x, P x -> Q x -> False) ->
  (length (filter P l) + length (filter Q l) <= length l)%nat ∧
  (Forall (λ x, P x ∨ Q x) l ->
   (length (filter P l) + length (filter Q l))%nat = length l).
Proof.
  intros Hdis. induction l as [|x l [IH1 IH2]]; [split; reflexivity|].
  rewrite !filter_cons. split.
  - repeat case_decide; simpl; try lia. exfalso. eauto.
  - intros Hall. inversion Hall as [|? ? Hx Hall']; subst. specialize (IH2 Hall').
    repeat case_decide; simpl; try lia; exfalso; [eauto | tauto].
Qed.

(** X12. When the existence check ends without an exception, it has made
    one probe per name, in order, at the address of the index followed by
    a slash and the name; found holds the names that answered 200 and
    missing those that answered 404, each in the order probed; a name is
    never in both, and the two together hold at most as many names as were
    probed, exactly as many when every probe answered 200 or 404. *)
Theorem X12_check_outcome (rhead : string -> option Z) (url : string)
    (ids found missing : list string) (tr : list event)
    (Hcheck : check_exists rhead url ids [] [] = (tr, OK (found, missing))) :
  tr = (λ id, EvHead (url +:+ "/" +:+ id)) <$> ids ∧
  found = filter (λ id, rhead (url +:+ "/" +:+ id) = Some 200) ids ∧
  missing = filter (λ id, rhead (url +:+ "/" +:+ id) = Some 404) ids ∧
  (∀ id, ¬ (id ∈ found ∧ id ∈ missing)) ∧
  (length found + length missing <= length ids)%nat ∧
  (Forall (λ id, rhead (url +:+ "/" +:+ id) = Some 200 ∨
                 rhead (url +:+ "/" +:+ id) = Some 404) ids ->
   (length found + length missing)%nat = length ids) ∧
  (NoDup ids -> NoDup found ∧ NoDup missing).
Proof.
  destruct (check_exists_result _ _ _ _ _ _ _ _ Hcheck) as (-> & -> & -> & _).
  simpl. split; [reflexivity|]. split; [reflexivity|]. split; [reflexivity|].
  split; [|split; [|split]].
  - intros id. rewrite !list_elem_of_filter. intros [[H1 _] [H2 _]]. congruence.
  - apply filter_two_length. intros id H1 H2. congruence.
  - apply filter_two_length. intros id H1 H2. congruence.
  - intros Hnd. split; apply NoDup_filter; exact Hnd.
Qed.

(** X13. The check stops at the first probe that fails: after names whose
    probes answered 200, 404 or a status outside 400..599, a probe that
    answers another status from 400 to 599 raises the HTTPError of that
    status, and one whose retries all failed raises the transport
    exception; the names after it are not probed. *)
Theorem X13_check_aborts (rhead : string -> option Z) (url : string)
    (pre : list string) (id : string) (rest : list string)
    (Hpre : Forall (λ id, ∃ status, rhead (url +:+ "/" +:+ id) = Some status ∧
                     (status = 200 ∨ status = 404 ∨ ¬ (400 <= status < 600))) pre) :
  let probes := (λ id, EvHead (url +:+ "/" +:+ id)) <$> (pre ++ [id]) in
  (∀ status, rhead (url +:+ "/" +:+ id) = Some status ->
     400 <= status < 600 -> status ≠ 404 ->
     check_exists rhead url (pre ++ id :: rest) [] [] = (probes, Raise (HTTPError status))) ∧
  (rhead (url +:+ "/" +:+ id) = None ->
     check_exists rhead url (pre ++ id :: rest) [] [] = (probes, Raise RequestException)).
Proof.
  intros probes. subst probes.
  assert (Hgen : ∀ err,
    (∀ found missing, check_exists rhead url (id :: rest) found missing
                      = ([EvHead (url +:+ "/" +:+ id)], Raise err)) ->
    ∀ found missing, check_exists rhead url (pre ++ id :: rest) found missing
      = ((λ id, EvHead (url +:+ "/" +:+ id)) <$> (pre ++ [id]), Raise err)).
  { intros err Hid. induction pre as [|p pre IH]; intros found missing; [apply Hid|].
    inversion Hpre as [|? ? (status & Hp & Hs) Hpre']; subst.
    rewrite <- !app_comm_cons. cbn [check_exists]. rewrite Hp.
    destruct (status =? 200)%Z eqn:E200;
      [|destruct (status =? 404)%Z eqn:E404].
    - rewrite (IH Hpre'). reflexivity.
    - rewrite (IH Hpre'). reflexivity.
    - apply Z.eqb_neq in E200, E404. unfold raise_for_status.
      destruct ((400 <=? status) && (status <? 600)) eqn:Hr.
      + apply andb_true_iff in Hr as [? ?]. lia.
      + cbn [mbind result_bind]. rewrite (IH Hpre'). reflexivity. }
  split.
  - intros status Hp Hr Hne. apply Hgen. intros found missing.
    apply check_exists_error; assumption.
  - intros Hp. apply Hgen. intros found missing. simpl. rewrite Hp. reflexivity.
Qed.

(** ** The accumulator, further *)

Section DriverMore.

Variable wkt_ok : string -> bool.
Variable py_repr : value -> string.
Variable abspath : string -> string.
Variable isdir : string -> bool.
Variable mkdtemp : nat -> string.

Lemma accumulate_consistent (version : string) (a a' : accumulator) (met : record) :
  acc_consistent version a -> accumulate version a met = OK a' ->
  acc_consistent version a'.
Proof.
  clear wkt_ok py_repr abspath isdir mkdtemp.
  intros [Hp Hb] H. apply accumulate_OK in H as (id & t & ds & Hid & _ & Hds & Hp' & Hb').
  destruct a' as [p' b']. cbn [prods_all ids_by_track] in Hp', Hb'. subst p' b'.
  unfold acc_consistent. cbn [prods_all ids_by_track].
  split.
  - intros id' met' ds' Hl. destruct (decide (id = id')) as [->|Hne].
    + rewrite lookup_insert_eq in Hl. injection Hl as <- <-. auto.
    + rewrite lookup_insert_ne in Hl by exact Hne. eauto.
  - assert (Hmono : ∀ id', is_Some (prods_all a !! id') ->
              is_Some ((<[id := (met, ds)]> (prods_all a)) !! id')).
    { intros id' Hs. destruct (decide (id = id')) as [->|Hne].
      - rewrite lookup_insert_eq. eauto.
      - rewrite lookup_insert_ne by exact Hne. exact Hs. }
    intros t' ids Hl. destruct (decide (t = t')) as [->|Hne].
    + rewrite lookup_insert_eq in Hl. injection Hl as <-. split.
      * intros Hnil. apply app_eq_nil in Hnil as [_ Hnil]. discriminate.
      * apply Forall_app. split.
        -- destruct (ids_by_track a !! t') as [old|] eqn:Hold; simpl; [|constructor].
           destruct (Hb _ _ Hold) as [_ Hall].
           eapply Forall_impl; [exact Hall|]. exact Hmono.
        -- constructor; [|constructor]. rewrite lookup_insert_eq. eauto.
    + rewrite lookup_insert_ne in Hl by exact Hne. destruct (Hb _ _ Hl) as [Hnn Hall].
      split; [exact Hnn|]. eapply Forall_impl; [exact Hall|]. exact Hmono.
Qed.

Lemma process_entries_consistent (version : string) (es : list record)
    (a a' : accumulator) :
  acc_consistent version a ->
  for_each (process_entry wkt_ok py_repr version) es a = OK a' ->
  acc_consistent version a'.
Proof.
  clear abspath isdir mkdtemp.
  revert a. induction es as [|e es IH]; intros a Ha H; simpl in H.
  - injection H as <-. exact Ha.
  - apply bind_OK in H as (a1 & H1 & H). unfold process_entry in H1.
    apply bind_OK in H1 as (m & _ & H1).
    exact (IH a1 (accumulate_consistent _ _ _ _ Ha H1) H).
Qed.

Lemma initial_consistent (v : string) : acc_consistent v (acc initial_state).
Proof.
  clear wkt_ok py_repr abspath isdir mkdtemp.
  split.
  - intros id met ds H. cbn in H. rewrite lookup_empty in H. discriminate.
  - intros t ids H. cbn in H. rewrite lookup_empty in H. discriminate.
Qed.

(** X9. Whatever the entries hold, the accumulator that their filing
    leaves, starting from the empty one, is consistent: each record is
    filed under its own data_product_name, with the descriptor made from
    that record, no track has an empty bucket, and every name listed under
    a track is filed. *)
Theorem X9_accumulator_consistent (v : string) (es : list record) (a : accumulator)
    (Hfiled : for_each (process_entry wkt_ok py_repr v) es (acc initial_state) = OK a) :
  (∀ id met ds, prods_all a !! id = Some (met, ds) ->
     met !! "data_product_name" = Some (VStr id) ∧ get_dataset_json met v = OK ds) ∧
  (∀ t ids, ids_by_track a !! t = Some ids ->
     ids ≠ [] ∧ ∀ id, id ∈ ids -> id ∈ iteritems_keys (prods_all a)).
Proof.
  clear abspath isdir mkdtemp.
  destruct (process_entries_consistent v es (acc initial_state) a (initial_consistent v)
              Hfiled) as [Hp Hb].
  split.
  - intros id met ds Hl. destruct (Hp _ _ _ Hl) as [Hid Hds]. split; [|exact Hds].
    unfold record_id in Hid.
    destruct (met !! "data_product_name") as [[]|]; try discriminate. congruence.
  - intros t ids Hl. destruct (Hb _ _ Hl) as [Hnn Hall]. split; [exact Hnn|].
    intros id Hin. rewrite Forall_forall in Hall. destruct (Hall id Hin) as [p Hp'].
    unfold iteritems_keys. apply list_elem_of_fmap. exists (id, p).
    split; [reflexivity|]. apply elem_of_map_to_list. exact Hp'.
Qed.

(** *** The numbers of the report *)

Lemma track_counts_insert (a : accumulator) (t : Z + string) (id : string) :
  sum_list ((track_counts
     {| prods_all := prods_all a;
        ids_by_track := <[t := default [] (ids_by_track a !! t) ++ [id]]> (ids_by_track a) |}).*2)
  = S (sum_list ((track_counts a).*2)).
Proof.
  clear wkt_ok py_repr abspath isdir mkdtemp.
  unfold track_counts. cbn [ids_by_track].
  destruct (ids_by_track a !! t) as [old|] eqn:Hold; cbn [default].
  - rewrite <- (insert_delete_eq (ids_by_track a)).
    rewrite (map_to_list_insert (delete t (ids_by_track a))) by apply lookup_delete_eq.
    rewrite <- (map_to_list_delete (ids_by_track a) t old Hold).
    cbn [fmap list_fmap sum_list fst snd]. rewrite length_app. simpl. lia.
  - rewrite (map_to_list_insert (ids_by_track a)) by exact Hold.
    cbn [fmap list_fmap sum_list fst snd]. reflexivity.
Qed.

Lemma accumulate_counts (version : string) (a a' : accumulator) (met : record) :
  accumulate version a met = OK a' ->
  sum_list ((track_counts a').*2) = S (sum_list ((track_counts a).*2)) ∧
  (total_on_apihub a <= total_on_apihub a' <= S (total_on_apihub a))%nat.
Proof.
  clear wkt_ok py_repr abspath isdir mkdtemp.
  intros H. apply accumulate_OK in H as (id & t & ds & _ & _ & _ & Hp & Hb).
  split.
  - destruct a' as [p' b']. cbn [prods_all ids_by_track] in *. subst b'.
    unfold track_counts at 1. cbn [ids_by_track].
    exact (track_counts_insert a t id).
  - unfold total_on_apihub. rewrite Hp.
    destruct (prods_all a !! id) eqn:Hl.
    + rewrite map_size_insert_Some by (rewrite Hl; eauto). lia.
    + rewrite map_size_insert_None by exact Hl. lia.
Qed.

(** X16. The numbers of the report. After the entries of some pages are
    filed, the counts by track add up to the number of entries filed (a
    name met twice is counted twice), while the total on apihub, the
    number of names, has grown by at most that number. *)
Theorem X16_report_counts (v : string) (pages : list response) (a a' : accumulator)
    (Hfile : file_pages wkt_ok py_repr v pages a = OK a') :
  let n := length (concat (page_entries <$> pages)) in
  sum_list ((track_counts a').*2) = (sum_list ((track_counts a).*2) + n)%nat ∧
  (total_on_apihub a <= total_on_apihub a' <= total_on_apihub a + n)%nat.
Proof.
  clear abspath isdir mkdtemp.
  intros n. subst n. rewrite file_pages_concat in Hfile.
  revert a Hfile. induction (concat (page_entries <$> pages)) as [|e es IH];
    intros a H; simpl in H.
  - injection H as <-. simpl. lia.
  - apply bind_OK in H as (a1 & H1 & H). unfold process_entry in H1.
    apply bind_OK in H1 as (m & _ & H1).
    destruct (accumulate_counts _ _ _ _ H1) as [Hs Ht].
    destruct (IH _ H) as [Hs' Ht']. simpl. lia.
Qed.

End DriverMore.

(** ** Runs that fail *)

Section DriverRuns.

Variable wkt_ok : string -> bool.
Variable py_repr : value -> string.
Variable abspath : string -> string.
Variable isdir : string -> bool.
Variable mkdtemp : nat -> string.

(** X14. The first response ends the run. Whatever the options, the
    index and the rest of the script, [scrape] makes the first page request
    and nothing else, and raises: RequestException when the transport
    fails, HTTPError for a status from 400 to 599, XMLSyntaxError for a
    body that does not parse, and for a body that parses the TypeError of
    indexing the parsed Element with a text. *)
Theorem X14_first_response_ends_run (a : scrape_args) (rhead : string -> option Z)
    (r : response) (rest : list response) :
  let out := scrape wkt_ok py_repr abspath isdir mkdtemp a (r :: rest) rhead in
  out.1 = [EvGet (scrape_query a) 0 100] ∧
  (r = ConnectionFailed -> out.2 = Raise RequestException) ∧
  (∀ status body, r = Response status body -> 400 <= status < 600 ->
     out.2 = Raise (HTTPError status)) ∧
  (∀ status, r = Response status None -> ¬ (400 <= status < 600) ->
     out.2 = Raise XMLSyntaxError) ∧
  (∀ status f, r = Response status (Some f) -> ¬ (400 <= status < 600) ->
     out.2 = Raise TypeError).
Proof.
  intros out. subst out. rewrite scrape_raises. cbn [fst snd].
  assert (Hin : ∀ status, 400 <= status < 600 ->
            (400 <=? status) && (status <? 600) = true).
  { intros status [H1 H2]. apply andb_true_iff. split; lia. }
  assert (Hout : ∀ status, ¬ (400 <= status < 600) ->
            (400 <=? status) && (status <? 600) = false).
  { intros status H. destruct ((400 <=? status) && (status <? 600)) eqn:Hb; [|reflexivity].
    apply andb_true_iff in Hb as [H1 H2]. lia. }
  split; [reflexivity|]. split; [intros ->; reflexivity|]. split; [|split].
  - intros status body -> Hs. unfold turn_failure. rewrite (Hin _ Hs). reflexivity.
  - intros status -> Hs. unfold turn_failure. rewrite (Hout _ Hs). reflexivity.
  - intros status f -> Hs. unfold turn_failure. rewrite (Hout _ Hs). reflexivity.
Qed.

(** X15. Within a turn, once the entries of the page are at hand, an
    entry that [massage_result] rejects ends the turn with the exception of
    [massage_result], after the entries were dumped to res.json and the
    entries before it were filed: the pause is not made and the state of
    the loop is not returned. *)
Theorem X15_bad_entry_ends_turn (v : string) (es : entries) (total : Z) (st : loop_state)
    (l1 l2 : list record) (e : record) (filed : accumulator) (err : exn)
    (Hsplit : as_list es = l1 ++ e :: l2)
    (Hbefore : for_each (process_entry wkt_ok py_repr v) l1 (acc st) = OK filed)
    (Hbad : massage_result wkt_ok py_repr e = Raise err) :
  process_page wkt_ok py_repr v es total st =
    ([EvWrite "res.json" (JEntries es)], Raise err).
Proof.
  clear abspath isdir mkdtemp.
  unfold process_page. rewrite Hsplit, for_each_app, Hbefore.
  cbn [mbind result_bind for_each]. unfold process_entry. rewrite Hbad.
  reflexivity.
Qed.

End DriverRuns.

(** ** The command line *)

Section MainFacts.

Variable wkt_ok : string -> bool.
Variable py_repr : value -> string.
Variable abspath : string -> string.
Variable isdir : string -> bool.
Variable mkdtemp : nat -> string.
Variable utc_yesterday : string.
Variable utc_now : string.

(** The configuration error is raised by the test of the options only. *)
Lemma scrape_config_error (a : scrape_args) (script : list response)
    (rhead : string -> option Z) (tr : list event) (e : exn) :
  scrape wkt_ok py_repr abspath isdir mkdtemp a script rhead = (tr, Raise e) ->
  is_config_error e = true ->
  ingest_missing a = true ∧ create_only a = true.
Proof.
  clear utc_yesterday utc_now.
  intros H Hcfg.
  destruct (scrape_one_request wkt_ok py_repr abspath isdir mkdtemp a script rhead)
    as (e' & He' & Hk).
  rewrite He' in H. injection H as _ ->. rewrite Hk in Hcfg. discriminate.
Qed.

(** X17. The command line. A command line with both --ingest and
    --create_only, or with more than two times, is refused by the parser:
    nothing is requested and no error file is written. Otherwise [scrape]
    runs with the times and the version given or their defaults; when it
    raises, the exception is appended to the two error files after the
    events of the run and raised again, and it is never the configuration
    error; when it returns, no error file is touched. *)
Theorem X17_command_line (cl : command_line) (script : list response)
    (rhead : string -> option Z) :
  let out := main wkt_ok py_repr abspath isdir mkdtemp utc_yesterday utc_now
                  cl script rhead in
  (cl_ingest cl = true -> cl_create_only cl = true -> out = ([], ExitUsage)) ∧
  ((2 < length (cl_times cl))%nat -> out = ([], ExitUsage)) ∧
  (∀ e, out.2 = Reraised e ->
     e ≠ CONFIG_ERROR ∧
     ∃ a tr, parse_args utc_yesterday utc_now cl = Some a ∧
       scrape wkt_ok py_repr abspath isdir mkdtemp a script rhead = (tr, Raise e) ∧
       out.1 = (Scraped <$> tr) ++
               [Appended "_alt_error.txt" e; Appended "_alt_traceback.txt" e]) ∧
  (out.2 = ExitNormal -> Forall (λ ev, ∃ ev', ev = Scraped ev') out.1) ∧
  (∀ a, parse_args utc_yesterday utc_now cl = Some a ->
     starttime a = default (utc_yesterday +:+ "Z") (cl_times cl !! 0%nat) ∧
     endtime a = default (utc_now +:+ "Z") (cl_times cl !! 1%nat) ∧
     version a = default "v1.1" (cl_dataset_version cl) ∧
     ingest_missing a && create_only a = false).
Proof.
  intros out. subst out. unfold main, parse_args.
  split; [|split; [|split; [|split]]].
  - intros -> ->. reflexivity.
  - intros Hlen. apply Nat.ltb_lt in Hlen. rewrite Hlen.
    destruct (cl_ingest cl && cl_create_only cl); reflexivity.
  - intros e. destruct (cl_ingest cl && cl_create_only cl) eqn:Hboth; [discriminate|].
    destruct (2 <? length (cl_times cl))%nat; [discriminate|].
    match goal with
    | |- context [scrape _ _ _ _ _ ?a _ _] =>
        destruct (scrape wkt_ok py_repr abspath isdir mkdtemp a script rhead)
          as [tr [r|e']] eqn:Hs
    end; cbn [snd fst]; [discriminate|].
    intros [= ->]. split.
    + intros ->.
      assert (Hcfg : is_config_error CONFIG_ERROR = true) by reflexivity.
      destruct (scrape_config_error _ _ _ _ _ Hs Hcfg) as [Hi Hc].
      cbn [ingest_missing create_only] in Hi, Hc. rewrite Hi, Hc in Hboth. discriminate.
    + eexists _, tr. split; [reflexivity|]. split; [exact Hs | reflexivity].
  - destruct (cl_ingest cl && cl_create_only cl) eqn:Hboth; [discriminate|].
    destruct (2 <? length (cl_times cl))%nat; [discriminate|].
    match goal with
    | |- context [scrape _ _ _ _ _ ?a _ _] =>
        destruct (scrape wkt_ok py_repr abspath isdir mkdtemp a script rhead)
          as [tr [r|e']]
    end; cbn [snd fst]; [|discriminate].
    intros _. apply Forall_fmap. apply Forall_forall. intros ev _. cbn. eauto.
  - intros a. destruct (cl_ingest cl && cl_create_only cl) eqn:Hboth; [discriminate|].
    destruct (2 <? length (cl_times cl))%nat; [discriminate|].
    intros [= <-]. cbn. auto.
Qed.

End MainFacts.

(** ** The further properties on the samples *)

(** The token of platform A in a title. *)
Lemma X4_witness :
  ∃ pre post c mid,
    "S1A_IW_SLC__1SDV" = pre +:+ "S1" +:+ "A" +:+ String "_" post ∧ "A" = String c mid ∧
    lacks "010" "A" = true ∧ lacks "_" mid = true.
Proof. exact (proj1 (X4_platform_token "S1A_IW_SLC__1SDV" "A" eq_refl)). Defined.

(** Scene 0 without its integers. *)
Lemma X1_witness :
  massage_result any_wkt repr_none scene_no_int = Raise (KeyError "int").
Proof.
  assert (Hint : scene_no_int !! "int" = None) by reflexivity.
  exact (proj1 (X1_integer_group_errors any_wkt repr_none scene_no_int) Hint).
Defined.

(** The derived fields of scene 0. *)
Lemma X3_witness :
  ∃ t w g,
    scene_met 0 !! "title" = Some (VStr t) ∧
    scene_met 0 !! "data_product_name" = Some (VStr ("acquisition-" +:+ t)) ∧
    scene_met 0 !! "archive_filename" = Some (VStr (t +:+ ".zip")) ∧
    scene_met 0 !! "footprint" = Some (VStr w) ∧ any_wkt w = true ∧
    scene_met 0 !! "location" = Some (VLocation w) ∧
    scene_met 0 !! "bbox" = Some (VBbox w) ∧
    platform_re_search t = Some g ∧
    scene_met 0 !! "platform" = Some (VStr ("Sentinel-1" +:+ g)).
Proof.
  exact (X3_derived_fields any_wkt repr_none (scene 0) (scene_met 0) (scene_normalised 0)).
Defined.

(** The descriptor of scene 0. *)
Lemma X5_witness :
  ∃ t w, scene_met 0 !! "title" = Some (VStr t) ∧
         scene_met 0 !! "footprint" = Some (VStr w) ∧
         get_dataset_json (scene_met 0) "v1.1" =
           OK {| ds_version := "v1.1"; ds_label := VStr ("acquisition-" +:+ t);
                 ds_location := VLocation w;
                 ds_starttime := VStr "2017-04-09T01:02:03.456";
                 ds_endtime := VStr "2017-04-09T01:02:30.456" |}.
Proof.
  assert (Hb : scene_met 0 !! "sensingStart" = Some (VStr "2017-04-09T01:02:03.456"))
    by reflexivity.
  assert (Hs : scene_met 0 !! "sensingStop" = Some (VStr "2017-04-09T01:02:30.456"))
    by reflexivity.
  exact (proj2 (proj2 (X5_dataset_of_normalised any_wkt repr_none (scene 0) (scene_met 0)
                         "v1.1" (scene_normalised 0))) _ _ Hb Hs).
Defined.

(** The groups of scene 0 are gone from its record. *)
Lemma X2_witness :
  scene_met 0 !! "date" = None ∧ ∀ k, k ∈ group_keys -> scene_met 0 !! k = None.
Proof.
  assert (Hplain : plain_groups (scene 0)).
  { eexists _, _, _, _. repeat (split; [reflexivity|]).
    repeat constructor; intros k Hk; vm_compute in Hk; try discriminate Hk;
      injection Hk as <-; intros Hin;
      repeat (apply elem_of_cons in Hin as [Hin|Hin]; [discriminate Hin|]);
      inversion Hin. }
  destruct (X2_groups_consumed any_wkt repr_none (scene 0) (scene_met 0)
              (scene_normalised 0)) as [Hdate Hall].
  split; [exact Hdate | exact (Hall Hplain)].
Defined.

(** The record of scene 0 without the link to its picture, with a picture
    asked for. *)
Lemma X6_witness :
  acq_returned (create_acq_dataset abspath_cwd no_dir (scene_ds 0) met_no_icon "." true)
    = Raise (KeyError "icon").
Proof.
  assert (Hid : met_no_icon !! "data_product_name" = Some (VStr (scene_name 0)))
    by reflexivity.
  assert (Hicon : met_no_icon !! "icon" = None) by reflexivity.
  exact (proj1 (proj2 (X6_create_failures abspath_cwd no_dir (scene_ds 0) met_no_icon ".")
                  (scene_name 0) Hid Hicon)).
Defined.

(** The ingestion of scene 0. *)
Lemma X8_witness :
  acq_events (ingest_acq_dataset abspath_cwd no_dir tmp_dirs (scene_ds 0) (scene_met 0)
                "/home/ops/verdi/etc/datasets.json" false 0) =
    EvMkdtemp (tmp_dirs 0) ::
    acq_events (create_acq_dataset abspath_cwd no_dir (scene_ds 0) (scene_met 0)
                  (tmp_dirs 0) false) ++
    [EvIngest (scene_name 0) "/home/ops/verdi/etc/datasets.json"
              (os_path_join (abspath_cwd (tmp_dirs 0)) (scene_name 0));
     EvRmtree (tmp_dirs 0)].
Proof.
  assert (Hmade : acq_returned (create_acq_dataset abspath_cwd no_dir (scene_ds 0)
                                  (scene_met 0) (tmp_dirs 0) false)
                  = OK (scene_name 0, os_path_join (abspath_cwd (tmp_dirs 0)) (scene_name 0)))
    by reflexivity.
  exact (proj1 (proj2 (proj2 (X8_ingest_steps abspath_cwd no_dir tmp_dirs (scene_ds 0)
                                (scene_met 0) "/home/ops/verdi/etc/datasets.json" false 0)))
           _ _ Hmade).
Defined.

(** Scenes 0 and 1 against the sample index: one found, one missing. *)
Lemma X12_witness :
  let ids := [scene_name 0; scene_name 1] in
  [EvHead ("http://grq" +:+ "/" +:+ scene_name 0);
   EvHead ("http://grq" +:+ "/" +:+ scene_name 1)]
    = (λ id, EvHead ("http://grq" +:+ "/" +:+ id)) <$> ids ∧
  [scene_name 0] = filter (λ id, sample_index ("http://grq" +:+ "/" +:+ id) = Some 200) ids ∧
  [scene_name 1] = filter (λ id, sample_index ("http://grq" +:+ "/" +:+ id) = Some 404) ids ∧
  (length [scene_name 0] + length [scene_name 1] <= length ids)%nat.
Proof.
  intros ids.
  assert (Hcheck : check_exists sample_index "http://grq" ids [] [] =
            ([EvHead ("http://grq" +:+ "/" +:+ scene_name 0);
              EvHead ("http://grq" +:+ "/" +:+ scene_name 1)],
             OK ([scene_name 0], [scene_name 1]))) by reflexivity.
  destruct (X12_check_outcome sample_index "http://grq" ids _ _ _ Hcheck)
    as (Htr & Hfound & Hmissing & _ & Hlen & _).
  split; [exact Htr|]. split; [exact Hfound|]. split; [exact Hmissing | exact Hlen].
Defined.

(** Scene 1 is missing and the probe for scene 2 answers 500. *)
Lemma X13_witness :
  check_exists sample_index "http://grq" ([scene_name 1] ++ scene_name 2 :: [scene_name 0])
               [] [] =
    ((λ id, EvHead ("http://grq" +:+ "/" +:+ id)) <$> ([scene_name 1] ++ [scene_name 2]),
     Raise (HTTPError 500)).
Proof.
  assert (Hpre : Forall (λ id, ∃ status,
                    sample_index ("http://grq" +:+ "/" +:+ id) = Some status ∧
                    (status = 200 ∨ status = 404 ∨ ¬ (400 <= status < 600)))
                  [scene_name 1]).
  { constructor; [|constructor]. exists 404. split; [reflexivity|]. right. left. reflexivity. }
  assert (Hprobe : sample_index ("http://grq" +:+ "/" +:+ scene_name 2) = Some 500)
    by reflexivity.
  refine (proj1 (X13_check_aborts sample_index "http://grq" [scene_name 1] (scene_name 2)
                   [scene_name 0] Hpre) 500 Hprobe _ _); lia.
Defined.

(** The accumulator after scene 0 is filed holds it under its name. *)
Lemma X9_witness :
  scene_met 0 !! "data_product_name" = Some (VStr (scene_name 0)) ∧
  get_dataset_json (scene_met 0) "v1.1" = OK (scene_ds 0).
Proof.
  assert (Hrun : for_each (process_entry any_wkt repr_none "v1.1") [scene 0]
                   (acc initial_state)
                 = OK (scenes_filed [0%nat] (acc initial_state))) by reflexivity.
  assert (Hfiled : prods_all (scenes_filed [0%nat] (acc initial_state)) !! scene_name 0
                   = Some (scene_met 0, scene_ds 0)) by reflexivity.
  exact (proj1 (X9_accumulator_consistent any_wkt repr_none "v1.1" [scene 0] _ Hrun)
           _ _ _ Hfiled).
Defined.

(** Two scenes of one track filed from one page. *)
Lemma X16_witness :
  let a := acc initial_state in
  let a' := scenes_filed [0%nat; 1%nat] a in
  sum_list ((track_counts a').*2) = (sum_list ((track_counts a).*2) + 2)%nat ∧
  (total_on_apihub a <= total_on_apihub a' <= total_on_apihub a + 2)%nat.
Proof.
  assert (Hfile : file_pages any_wkt repr_none "v1.1" [scene_page "2" 0 2]
                    (acc initial_state)
                  = OK (scenes_filed [0%nat; 1%nat] (acc initial_state))) by reflexivity.
  exact (X16_report_counts any_wkt repr_none "v1.1" [scene_page "2" 0 2] _ _ Hfile).
Defined.

(** A first page that parses, with ingestion asked for: the TypeError. *)
Lemma X14_witness :
  (scrape_sample (sample_args true false) (scene_page "1" 0 1 :: [last_page "1"])
                 empty_index).2 = Raise TypeError.
Proof.
  refine (proj2 (proj2 (proj2 (proj2
            (X14_first_response_ends_run any_wkt repr_none abspath_cwd no_dir tmp_dirs
               (sample_args true false) empty_index (scene_page "1" 0 1)
               [last_page "1"])))) 200 _ eq_refl _).
  lia.
Defined.

(** The second entry of a page has no group of integers. *)
Lemma X15_witness :
  process_page any_wkt repr_none "v1.1" (Many [scene 0; scene_no_int]) 2 initial_state =
    ([EvWrite "res.json" (JEntries (Many [scene 0; scene_no_int]))],
     Raise (KeyError "int")).
Proof.
  assert (Hsplit : as_list (Many [scene 0; scene_no_int]) = [scene 0] ++ scene_no_int :: [])
    by reflexivity.
  assert (Hbefore : for_each (process_entry any_wkt repr_none "v1.1") [scene 0]
                      (acc initial_state)
                    = OK (scenes_filed [0%nat] (acc initial_state))) by reflexivity.
  assert (Hbad : massage_result any_wkt repr_none scene_no_int = Raise (KeyError "int"))
    by reflexivity.
  exact (X15_bad_entry_ends_turn any_wkt repr_none "v1.1" (Many [scene 0; scene_no_int]) 2
           initial_state [scene 0] [] scene_no_int _ (KeyError "int")
           Hsplit Hbefore Hbad).
Defined.

(** Both flags on the command line: the parser refuses, nothing runs. *)
Lemma X17_witness :
  main any_wkt repr_none abspath_cwd no_dir tmp_dirs
       "2017-04-08T12:00:00.123456" "2017-04-09T12:00:00.123456"
       (sample_command_line true true) sample_script empty_index = ([], ExitUsage).
Proof.
  exact (proj1 (X17_command_line any_wkt repr_none abspath_cwd no_dir tmp_dirs
                  "2017-04-08T12:00:00.123456" "2017-04-09T12:00:00.123456"
                  (sample_command_line true true) sample_script empty_index)
           eq_refl eq_refl).
Defined.
